(** * vault-registry-proxy: locator parsing, credential cache, challenge
    scopes and request forwarding

  A shallow embedding of the Go sources [pkg/auth/config.go],
  [pkg/auth/middleware.go], [pkg/cache/cache.go], the Vault client and the
  registry handlers, followed by the properties of the written
  specification that the code satisfies or violates.

  Go strings are byte strings: they are modelled by [string], one [ascii]
  per byte.  Maps ([http.Header], the go-cache item table, a Vault secret's
  data) are [gmap]s. *)

From Stdlib Require Import ZArith Ascii String List Bool Lia.
From stdpp Require Import base option list strings gmap fin_maps.

Local Open Scope Z_scope.

(* ===================================================================== *)
(** ** The parts of Go's [strings] package that the proxy calls *)
(* ===================================================================== *)

Module GoStrings.

Definition byte (n : nat) : ascii := ascii_of_nat n.
Definition code (c : ascii) : nat := nat_of_ascii c.

Fixpoint len (s : string) : nat :=
  match s with
  | EmptyString => O
  | String _ r => S (len r)
  end.

(** [s[:n]] and [s[n:]] (clamped, the callers stay in range). *)
Fixpoint slice_to (n : nat) (s : string) : string :=
  match n, s with
  | S k, String c r => String c (slice_to k r)
  | _, _ => EmptyString
  end.

Fixpoint slice_from (n : nat) (s : string) : string :=
  match n, s with
  | S k, String _ r => slice_from k r
  | _, _ => s
  end.

Fixpoint HasPrefix (s prefix : string) {struct prefix} : bool :=
  match prefix with
  | EmptyString => true
  | String p ps =>
      match s with
      | EmptyString => false
      | String c cs => if Ascii.eqb c p then HasPrefix cs ps else false
      end
  end.

Definition TrimPrefix (s prefix : string) : string :=
  if HasPrefix s prefix then slice_from (len prefix) s else s.

Definition HasSuffix (s suffix : string) : bool :=
  if Nat.leb (len suffix) (len s)
  then String.eqb (slice_from (len s - len suffix) s) suffix
  else false.

Definition TrimSuffix (s suffix : string) : string :=
  if HasSuffix s suffix then slice_to (len s - len suffix) s else s.

(** Whether the byte [c] occurs in [s]. *)
Fixpoint occurs (c : ascii) (s : string) : bool :=
  match s with
  | EmptyString => false
  | String d r => Ascii.eqb d c || occurs c r
  end.

(** [strings.Index]: the first position where [sep] occurs, [None] for
    Go's [-1]. *)
Fixpoint Index (s sep : string) : option nat :=
  if HasPrefix s sep then Some O
  else match s with
       | EmptyString => None
       | String _ r => S <$> Index r sep
       end.

Definition Contains (s substr : string) : bool :=
  match Index s substr with Some _ => true | None => false end.

(** The loop of [genSplit]: at most [cuts] separators are consumed, the
    last substring is the unsplit remainder. *)
Fixpoint genSplit (cuts : nat) (s sep : string) : list string :=
  match cuts with
  | O => [s]
  | S k =>
      match Index s sep with
      | None => [s]
      | Some m => slice_to m s :: genSplit k (slice_from (m + len sep) s) sep
      end
  end.

(** [strings.SplitN(s, sep, n)] for [n >= 0] and a non-empty [sep]. *)
Definition SplitN (s sep : string) (n : nat) : list string :=
  match n with
  | O => []
  | S k => genSplit k s sep
  end.

(** [strings.Split(s, sep)] for a non-empty [sep]: every separator is
    cut, and a string holds at most [len s] of them. *)
Definition Split (s sep : string) : list string := genSplit (len s) s sep.

Fixpoint Join (elems : list string) (sep : string) : string :=
  match elems with
  | [] => EmptyString
  | [e] => e
  | e :: r => e +:+ sep +:+ Join r sep
  end.

(** [unicode.IsSpace] on a one-byte rune below [utf8.RuneSelf]. *)
Definition asciiSpace (c : ascii) : bool :=
  let n := code c in
  (Nat.leb 9 n && Nat.leb n 13) || Nat.eqb n 32.

(** U+0085 and U+00A0, encoded C2 85 and C2 A0. *)
Definition space2 (c1 c2 : ascii) : bool :=
  Nat.eqb (code c1) 194 && (Nat.eqb (code c2) 133 || Nat.eqb (code c2) 160).

(** The three-byte white space: U+1680 (E1 9A 80), U+2000..U+200A
    (E2 80 80..8A), U+2028, U+2029, U+202F (E2 80 A8, A9, AF), U+205F
    (E2 81 9F) and U+3000 (E3 80 80). *)
Definition space3 (c1 c2 c3 : ascii) : bool :=
  let a := code c1 in let b := code c2 in let c := code c3 in
  (Nat.eqb a 225 && Nat.eqb b 154 && Nat.eqb c 128)
  || (Nat.eqb a 226 && Nat.eqb b 128
      && ((Nat.leb 128 c && Nat.leb c 138)
          || Nat.eqb c 168 || Nat.eqb c 169 || Nat.eqb c 175))
  || (Nat.eqb a 226 && Nat.eqb b 129 && Nat.eqb c 159)
  || (Nat.eqb a 227 && Nat.eqb b 128 && Nat.eqb c 128).

(** [strings.TrimLeftFunc(s, unicode.IsSpace)]: runes are decoded from the
    front; a rune is white space exactly when the bytes at the front are
    the UTF-8 encoding of one of the white-space code points. *)
Fixpoint trimLeftSpace (s : string) : string :=
  match s with
  | EmptyString => s
  | String c1 r1 =>
      if asciiSpace c1 then trimLeftSpace r1
      else match r1 with
           | EmptyString => s
           | String c2 r2 =>
               if space2 c1 c2 then trimLeftSpace r2
               else match r2 with
                    | EmptyString => s
                    | String c3 r3 =>
                        if space3 c1 c2 c3 then trimLeftSpace r3 else s
                    end
           end
  end.

Fixpoint rev_onto (s acc : string) : string :=
  match s with
  | EmptyString => acc
  | String c r => rev_onto r (String c acc)
  end.

Definition reverse (s : string) : string := rev_onto s EmptyString.

(** The same scan from the back ([utf8.DecodeLastRuneInString]): on the
    reversed bytes the encodings appear last byte first. *)
Fixpoint trimLeftSpaceRev (s : string) : string :=
  match s with
  | EmptyString => s
  | String c1 r1 =>
      if asciiSpace c1 then trimLeftSpaceRev r1
      else match r1 with
           | EmptyString => s
           | String c2 r2 =>
               if space2 c2 c1 then trimLeftSpaceRev r2
               else match r2 with
                    | EmptyString => s
                    | String c3 r3 =>
                        if space3 c3 c2 c1 then trimLeftSpaceRev r3 else s
                    end
           end
  end.

Definition trimRightSpace (s : string) : string :=
  reverse (trimLeftSpaceRev (reverse s)).

(** [strings.TrimSpace]: leading, then trailing white space removed. *)
Definition TrimSpace (s : string) : string :=
  trimRightSpace (trimLeftSpace s).

End GoStrings.

(* ===================================================================== *)
(** ** pkg/auth/config.go *)
(* ===================================================================== *)

Module Auth.
Import GoStrings.

Inductive ParseError : Type :=
| ErrInvalidUsernameFormat
| ErrUnsupportedRegistryType.

Record RegistryConfig : Type := mkRegistryConfig {
  Type_ : string;
  VaultPath : string;
  RegistryURL : string
}.

Definition isValidRegistryType (registryType : string) : bool :=
  String.eqb registryType "docker"
  || String.eqb registryType "ecr"
  || String.eqb registryType "gcr".

Definition ParseUsername (username : string) : RegistryConfig + ParseError :=
  match SplitN username ";" 3 with
  | [p0; p1; p2] =>
      let registryType := TrimSpace p0 in
      let vaultPath := TrimSpace p1 in
      let registryURL := TrimSpace p2 in
      if String.eqb registryType "" || String.eqb vaultPath ""
         || String.eqb registryURL ""
      then inr ErrInvalidUsernameFormat
      else if negb (isValidRegistryType registryType)
      then inr ErrUnsupportedRegistryType
      else inl (mkRegistryConfig registryType vaultPath registryURL)
  | _ => inr ErrInvalidUsernameFormat
  end.

Record Credentials : Type := mkCredentials {
  Username : string;
  Password : string;
  Email : string
}.

Record AuthHeader : Type := mkAuthHeader {
  ahUsername : string;
  ahPassword : string
}.

Record BearerAuth : Type := mkBearerAuth {
  Token : string;
  baRegistryURL : string
}.

End Auth.

(* ===================================================================== *)
(** ** crypto/sha256, the [%x] verb and encoding/base64 *)
(* ===================================================================== *)

Module Sha256.

(** 32-bit words are integers in [0, 2^32); additions wrap. *)
Definition wrap (x : Z) : Z := x mod 4294967296.
Definition add32 (a b : Z) : Z := wrap (a + b).
Definition rotr (n x : Z) : Z :=
  Z.lor (Z.shiftr x n) (wrap (Z.shiftl x (32 - n))).
Definition not32 (x : Z) : Z := Z.lxor x 4294967295.

Definition Ch (x y z : Z) : Z := Z.lxor (Z.land x y) (Z.land (not32 x) z).
Definition Maj (x y z : Z) : Z :=
  Z.lxor (Z.lxor (Z.land x y) (Z.land x z)) (Z.land y z).
Definition bsig0 (x : Z) : Z :=
  Z.lxor (Z.lxor (rotr 2 x) (rotr 13 x)) (rotr 22 x).
Definition bsig1 (x : Z) : Z :=
  Z.lxor (Z.lxor (rotr 6 x) (rotr 11 x)) (rotr 25 x).
Definition ssig0 (x : Z) : Z :=
  Z.lxor (Z.lxor (rotr 7 x) (rotr 18 x)) (Z.shiftr x 3).
Definition ssig1 (x : Z) : Z :=
  Z.lxor (Z.lxor (rotr 17 x) (rotr 19 x)) (Z.shiftr x 10).

(** Round constants and initial hash value, in decimal. *)
Definition K : list Z :=
  [ 1116352408; 1899447441; 3049323471; 3921009573;
    961987163; 1508970993; 2453635748; 2870763221;
    3624381080; 310598401; 607225278; 1426881987;
    1925078388; 2162078206; 2614888103; 3248222580;
    3835390401; 4022224774; 264347078; 604807628;
    770255983; 1249150122; 1555081692; 1996064986;
    2554220882; 2821834349; 2952996808; 3210313671;
    3336571891; 3584528711; 113926993; 338241895;
    666307205; 773529912; 1294757372; 1396182291;
    1695183700; 1986661051; 2177026350; 2456956037;
    2730485921; 2820302411; 3259730800; 3345764771;
    3516065817; 3600352804; 4094571909; 275423344;
    430227734; 506948616; 659060556; 883997877;
    958139571; 1322822218; 1537002063; 1747873779;
    1955562222; 2024104815; 2227730452; 2361852424;
    2428436474; 2756734187; 3204031479; 3329325298 ].

Definition H0 : list Z :=
  [ 1779033703; 3144134277; 1013904242; 2773480762;
    1359893119; 2600822924; 528734635; 1541459225 ].

Definition be_bytes (width : nat) (n : Z) : list Z :=
  map (fun i => (n / 2 ^ (8 * Z.of_nat i)) mod 256) (rev (seq 0 width)).

(** The message, one 0x80 byte, zeros up to 56 mod 64, the bit length. *)
Definition pad (msg : list Z) : list Z :=
  let l := Z.of_nat (length msg) in
  msg ++ [128] ++ replicate (Z.to_nat ((55 - l) mod 64)) 0
      ++ be_bytes 8 (8 * l).

Fixpoint words (bs : list Z) : list Z :=
  match bs with
  | a :: b :: c :: d :: r =>
      (a * 16777216 + b * 65536 + c * 256 + d) :: words r
  | _ => []
  end.

Fixpoint schedule (steps : nat) (w : list Z) : list Z :=
  match steps with
  | O => w
  | S k =>
      let t := length w in
      let x := add32 (add32 (ssig1 (nth (t - 2) w 0)) (nth (t - 7) w 0))
                     (add32 (ssig0 (nth (t - 15) w 0)) (nth (t - 16) w 0)) in
      schedule k (w ++ [x])
  end.

Definition round (st : list Z) (kw : Z * Z) : list Z :=
  match st with
  | [a; b; c; d; e; f; g; h] =>
      let t1 := add32 (add32 (add32 h (bsig1 e)) (add32 (Ch e f g) (fst kw)))
                      (snd kw) in
      let t2 := add32 (bsig0 a) (Maj a b c) in
      [add32 t1 t2; a; b; c; add32 d t1; e; f; g]
  | _ => st
  end.

Definition compress (h block : list Z) : list Z :=
  let w := schedule 48 block in
  let st := fold_left round (combine K w) h in
  map (fun p => add32 (fst p) (snd p)) (combine h st).

Fixpoint blocks (n : nat) (h ws : list Z) : list Z :=
  match n with
  | O => h
  | S k => blocks k (compress h (take 16 ws)) (drop 16 ws)
  end.

(** [sha256.Sum256]: the 32 digest bytes. *)
Definition Sum256 (msg : list Z) : list Z :=
  let ws := words (pad msg) in
  flat_map (be_bytes 4) (blocks (length ws / 16) H0 ws).

End Sha256.

Module Encoding.
Import GoStrings.

Definition bytes_of (s : string) : list Z :=
  map (fun c => Z.of_nat (code c)) (list_ascii_of_string s).

Definition hexdigit (n : Z) : ascii :=
  byte (Z.to_nat (if n <? 10 then 48 + n else 87 + n)).

(** [fmt.Sprintf("%x", bs)]: two lower-case digits per byte. *)
Fixpoint hex (bs : list Z) : string :=
  match bs with
  | [] => EmptyString
  | b :: r => String (hexdigit (b / 16)) (String (hexdigit (b mod 16)) (hex r))
  end.

(** The alphabet of [base64.StdEncoding]. *)
Definition b64digit (n : Z) : ascii :=
  byte (Z.to_nat (if n <? 26 then 65 + n
                  else if n <? 52 then 71 + n
                  else if n <? 62 then n - 4
                  else if n =? 62 then 43 else 47)).

Definition padChar : ascii := byte 61.

(** [base64.StdEncoding.EncodeToString]. *)
Fixpoint b64 (bs : list Z) : string :=
  match bs with
  | [] => EmptyString
  | [a] =>
      String (b64digit (a / 4))
        (String (b64digit (a mod 4 * 16)) (String padChar (String padChar EmptyString)))
  | [a; b] =>
      String (b64digit (a / 4))
        (String (b64digit (a mod 4 * 16 + b / 16))
           (String (b64digit (b mod 16 * 4)) (String padChar EmptyString)))
  | a :: b :: c :: r =>
      String (b64digit (a / 4))
        (String (b64digit (a mod 4 * 16 + b / 16))
           (String (b64digit (b mod 16 * 4 + c / 64))
              (String (b64digit (c mod 64)) (b64 r))))
  end.

Definition EncodeToString (s : string) : string := b64 (bytes_of s).

End Encoding.

(* ===================================================================== *)
(** ** github.com/patrickmn/go-cache, as far as cache.go uses it *)
(* ===================================================================== *)

Module GoCache.

(** Times are [UnixNano] readings and durations are nanoseconds. *)
Record Item (V : Type) : Type := mkItem {
  Object : V;
  Expiration : Z
}.
Arguments mkItem {V} _ _.
Arguments Object {V} _.
Arguments Expiration {V} _.

Record Cache (V : Type) : Type := mkCache {
  defaultExpiration : Z;
  items : gmap string (Item V)
}.
Arguments mkCache {V} _ _.
Arguments defaultExpiration {V} _.
Arguments items {V} _.

Definition NoExpiration : Z := -1.
Definition DefaultExpiration : Z := 0.

Section Ops.
Context {V : Type}.

Definition New (de ci : Z) : Cache V :=
  mkCache (if de =? 0 then -1 else de) ∅.

(** [Item.Expired], as inlined in [Get] and [DeleteExpired]. *)
Definition expired (it : Item V) (now : Z) : bool :=
  (0 <? Expiration it) && (Expiration it <? now).

Definition Set_ (c : Cache V) (now : Z) (k : string) (x : V) (d : Z) : Cache V :=
  let d := if d =? DefaultExpiration then defaultExpiration c else d in
  let e := if 0 <? d then now + d else 0 in
  mkCache (defaultExpiration c) (<[k := mkItem x e]> (items c)).

Definition Get (c : Cache V) (now : Z) (k : string) : option V :=
  match items c !! k with
  | None => None
  | Some it => if expired it now then None else Some (Object it)
  end.

Definition Delete (c : Cache V) (k : string) : Cache V :=
  mkCache (defaultExpiration c) (delete k (items c)).

Definition Flush (c : Cache V) : Cache V :=
  mkCache (defaultExpiration c) ∅.

(** One run of the janitor, every cleanup interval. *)
Definition DeleteExpired (c : Cache V) (now : Z) : Cache V :=
  mkCache (defaultExpiration c)
          (filter (fun kv => expired (snd kv) now = false) (items c)).

Definition ItemCount (c : Cache V) : nat := size (items c).

End Ops.
End GoCache.

(* ===================================================================== *)
(** ** pkg/cache/cache.go *)
(* ===================================================================== *)

Module Cache.
Import GoStrings.

Definition minute : Z := 60 * 1000000000.
Definition DefaultCacheTTL : Z := 5 * minute.
Definition DefaultCleanupInterval : Z := 10 * minute.

Abbreviation CredentialCache := (GoCache.Cache Auth.Credentials).

Definition NewCredentialCache : CredentialCache :=
  GoCache.New DefaultCacheTTL DefaultCleanupInterval.

Definition NewCredentialCacheWithTTL (ttl cleanupInterval : Z) : CredentialCache :=
  GoCache.New ttl cleanupInterval.

Definition generateCacheKey (vaultToken vaultPath : string) : string :=
  "creds:" +:+ Encoding.hex
     (Sha256.Sum256 (Encoding.bytes_of (vaultToken +:+ ":" +:+ vaultPath))).

(** The stored objects are only ever [*auth.Credentials], so the type
    assertion in [Get] always succeeds. *)
Definition Get (c : CredentialCache) (now : Z) (vaultToken vaultPath : string)
  : option Auth.Credentials :=
  GoCache.Get c now (generateCacheKey vaultToken vaultPath).

Definition Set_ (c : CredentialCache) (now : Z) (vaultToken vaultPath : string)
    (credentials : Auth.Credentials) : CredentialCache :=
  GoCache.Set_ c now (generateCacheKey vaultToken vaultPath) credentials
               GoCache.DefaultExpiration.

Definition SetWithTTL (c : CredentialCache) (now : Z)
    (vaultToken vaultPath : string) (credentials : Auth.Credentials) (ttl : Z)
  : CredentialCache :=
  GoCache.Set_ c now (generateCacheKey vaultToken vaultPath) credentials ttl.

Definition Delete (c : CredentialCache) (vaultToken vaultPath : string)
  : CredentialCache :=
  GoCache.Delete c (generateCacheKey vaultToken vaultPath).

Definition Clear (c : CredentialCache) : CredentialCache := GoCache.Flush c.

(** [Stats]: the item count of the table; go-cache keeps no other
    statistics, so the three remaining counters are constant zeros. *)
Definition Stats (c : CredentialCache) : nat * Z * Z * Z :=
  (GoCache.ItemCount c, 0, 0, 0).

(** [CacheWrapper]: a cache in front of a [CachedCredentialGetter].  The
    getter is a function of the token and the path that returns
    credentials or an error text; the calls made to it are kept, newest
    first, for the proofs. *)
Record CacheWrapper : Type := mkCacheWrapper {
  wrapped : CredentialCache;
  asked : list (string * string)
}.

Definition NewCacheWrapper : CacheWrapper :=
  mkCacheWrapper NewCredentialCache [].

(** [CacheWrapper.GetCredentials], with the clock readings of the lookup
    and of the store. *)
Definition GetCredentials
    (getter : string -> string -> Auth.Credentials + string)
    (atGet atSet : Z) (w : CacheWrapper) (vaultToken vaultPath : string)
  : (Auth.Credentials + string) * CacheWrapper :=
  match Get (wrapped w) atGet vaultToken vaultPath with
  | Some creds => (inl creds, w)
  | None =>
      let w := mkCacheWrapper (wrapped w) ((vaultToken, vaultPath) :: asked w) in
      match getter vaultToken vaultPath with
      | inr err => (inr err, w)
      | inl creds =>
          (inl creds,
           mkCacheWrapper (Set_ (wrapped w) atSet vaultToken vaultPath creds)
                          (asked w))
      end
  end.

End Cache.

(* ===================================================================== *)
(** ** The Vault client (package vault) *)
(* ===================================================================== *)

Module Vault.

(** A value of a secret's [Data] map: a string, or a value of any other
    dynamic type (number, bool, nil, nested map or list), for which the
    assertion [.(string)] fails. *)
Inductive Value : Type :=
| VString (s : string)
| VOther.

(** What [KVv2("secret").Get] answers: an error, a nil secret or nil data,
    or the data map. *)
Inductive KVReply : Type :=
| KVError (detail : string)
| KVNoData
| KVData (data : gmap string Value).

Inductive Error : Type :=
| ErrSecretNotFoundWith (detail : string)
| ErrSecretNotFound
| ErrUsernameNotFound
| ErrPasswordNotFound.

Definition errorText (e : Error) : string :=
  match e with
  | ErrSecretNotFoundWith d => "secret not found in Vault: " +:+ d
  | ErrSecretNotFound => "secret not found in Vault"
  | ErrUsernameNotFound => "username not found in secret"
  | ErrPasswordNotFound => "password not found in secret"
  end.

Definition asString (v : option Value) : option string :=
  match v with
  | Some (VString s) => Some s
  | _ => None
  end.

(** [GetCredentials], on the reply of the KV engine for the client's
    current token and [vaultPath]. *)
Definition GetCredentials (reply : KVReply) : Auth.Credentials + Error :=
  match reply with
  | KVError d => inr (ErrSecretNotFoundWith d)
  | KVNoData => inr ErrSecretNotFound
  | KVData data =>
      match asString (data !! "username") with
      | None => inr ErrUsernameNotFound
      | Some username =>
          match asString (data !! "password") with
          | None => inr ErrPasswordNotFound
          | Some password =>
              let email := default "" (asString (data !! "email")) in
              inl (Auth.mkCredentials username password email)
          end
      end
  end.

End Vault.

(* ===================================================================== *)
(** ** net/http: headers, requests, the response writer *)
(* ===================================================================== *)

Module Http.
Import GoStrings.

Abbreviation Header := (gmap string (list string)).

Definition isLower (c : ascii) : bool := Nat.leb 97 (code c) && Nat.leb (code c) 122.
Definition isUpper (c : ascii) : bool := Nat.leb 65 (code c) && Nat.leb (code c) 90.
Definition isDigit (c : ascii) : bool := Nat.leb 48 (code c) && Nat.leb (code c) 57.

(** [validHeaderFieldByte]: the token characters of RFC 7230. *)
Definition validHeaderFieldByte (c : ascii) : bool :=
  isLower c || isUpper c || isDigit c
  || existsb (Nat.eqb (code c))
       [33; 35; 36; 37; 38; 39; 42; 43; 45; 46; 94; 95; 96; 124; 126]%nat.

Fixpoint allBytes (f : ascii -> bool) (s : string) : bool :=
  match s with
  | EmptyString => true
  | String c r => f c && allBytes f r
  end.

Fixpoint canon (upper : bool) (s : string) : string :=
  match s with
  | EmptyString => EmptyString
  | String c r =>
      let c' := if upper && isLower c then byte (code c - 32)
                else if negb upper && isUpper c then byte (code c + 32)
                else c in
      String c' (canon (Ascii.eqb c' "-") r)
  end.

(** [textproto.CanonicalMIMEHeaderKey]: a key with a byte that is no token
    character is returned unchanged. *)
Definition CanonicalMIMEHeaderKey (s : string) : string :=
  if allBytes validHeaderFieldByte s then canon true s else s.

Definition HeaderGet (h : Header) (key : string) : string :=
  match h !! CanonicalMIMEHeaderKey key with
  | Some (v :: _) => v
  | _ => EmptyString
  end.

Definition HeaderSet (h : Header) (key value : string) : Header :=
  <[CanonicalMIMEHeaderKey key := [value]]> h.

Definition HeaderDel (h : Header) (key : string) : Header :=
  delete (CanonicalMIMEHeaderKey key) h.

(** An inbound request with the two values the middleware may put in its
    context (keys ["auth"] and ["bearer"]). *)
Record Request : Type := mkRequest {
  Method : string;
  Path : string;
  RawQuery : string;
  Header_ : Header;
  Body : string;
  ctxAuth : option Auth.AuthHeader;
  ctxBearer : option Auth.BearerAuth
}.

Definition withAuth (r : Request) (a : Auth.AuthHeader) : Request :=
  mkRequest (Method r) (Path r) (RawQuery r) (Header_ r) (Body r)
            (Some a) (ctxBearer r).

Definition withBearer (r : Request) (b : Auth.BearerAuth) : Request :=
  mkRequest (Method r) (Path r) (RawQuery r) (Header_ r) (Body r)
            (ctxAuth r) (Some b).

(** What encoding/json is given to encode. *)
#[local] Unset Elimination Schemes.
Inductive Json : Type :=
| JString (s : string)
| JArray (elems : list Json)
| JObject (fields : list (string * Json)).
#[local] Set Elimination Schemes.

(** One write to the response body: a JSON document and a newline
    ([json.Encoder.Encode]), a line of text ([fmt.Fprintln]), or bytes
    streamed from upstream ([io.Copy]). *)
Inductive Chunk : Type :=
| JsonLine (v : Json)
| TextLine (s : string)
| Stream (s : string).

Definition StatusOK : Z := 200.
Definition StatusUnauthorized : Z := 401.
Definition StatusInternalServerError : Z := 500.

(** [http.ResponseWriter]: the header map, the status and the headers that
    went out with it once [WriteHeader] ran, and the body written so far. *)
Record ResponseWriter : Type := mkWriter {
  wHeader : Header;
  wStatus : option Z;
  wSent : Header;
  wBody : list Chunk
}.

Definition newWriter : ResponseWriter := mkWriter ∅ None ∅ [].

Definition withHeader (w : ResponseWriter) (h : Header) : ResponseWriter :=
  mkWriter h (wStatus w) (wSent w) (wBody w).

(** A second [WriteHeader] is superfluous and ignored. *)
Definition WriteHeader (w : ResponseWriter) (statusCode : Z) : ResponseWriter :=
  match wStatus w with
  | Some _ => w
  | None => mkWriter (wHeader w) (Some statusCode) (wHeader w) (wBody w)
  end.

Definition Write (w : ResponseWriter) (c : Chunk) : ResponseWriter :=
  let w := WriteHeader w StatusOK in
  mkWriter (wHeader w) (wStatus w) (wSent w) (wBody w ++ [c]).

(** [http.Error]. *)
Definition Error (w : ResponseWriter) (error : string) (code : Z) : ResponseWriter :=
  let h := HeaderDel (wHeader w) "Content-Length" in
  let h := HeaderSet h "Content-Type" "text/plain; charset=utf-8" in
  let h := HeaderSet h "X-Content-Type-Options" "nosniff" in
  Write (WriteHeader (withHeader w h) code) (TextLine error).

(** The outbound request built by the forwarder, and the upstream's answer
    with the error of [io.Copy], if the body stream broke. *)
Record ProxyRequest : Type := mkProxyRequest {
  pMethod : string;
  pURL : string;
  pHeader : Header;
  pBody : string
}.

Record UpstreamResponse : Type := mkUpstreamResponse {
  StatusCode : Z;
  rHeader : Header;
  rBody : string;
  copyError : option string
}.

(** The collaborators outside the repository. *)
Class Externals : Type := {
  (** net/http's [parseBasicAuth] on a non-empty Authorization value *)
  parseBasicAuth : string -> option (string * string);
  (** [Request.Cookie(name)]: the cookie's value when [err == nil] *)
  cookieValue : Header -> string -> option string;
  (** the KV v2 engine read with a token at a path *)
  kvGet : string -> string -> Vault.KVReply;
  (** the error of [http.NewRequest(method, url, body)], if any *)
  newRequestError : string -> string -> option string;
  (** [http.Client.Do] *)
  clientDo : ProxyRequest -> string + UpstreamResponse
}.

Definition BasicAuth `{Externals} (r : Request) : option (string * string) :=
  let auth := HeaderGet (Header_ r) "Authorization" in
  if String.eqb auth "" then None else parseBasicAuth auth.

(** [http.Request.SetBasicAuth]. *)
Definition SetBasicAuth (h : Header) (username password : string) : Header :=
  HeaderSet h "Authorization"
    ("Basic " +:+ Encoding.EncodeToString (username +:+ ":" +:+ password)).

End Http.

(* ===================================================================== *)
(** ** pkg/auth/middleware.go *)
(* ===================================================================== *)

Module Middleware.
Import GoStrings Http.

Record Middleware : Type := NewMiddleware {
  realm : string;
  service : string
}.

(** The double quote of the challenge's format strings. *)
Definition dq : string := String (byte 34) EmptyString.

(** A handler acts on the response writer and on the server's state. *)
Definition Handler (S : Type) : Type :=
  ResponseWriter -> Request -> S -> ResponseWriter * S.

Definition getActionFromEndpoint (endpoint method : string) : string :=
  if String.eqb endpoint "tags" || HasPrefix endpoint "tags/" then "pull"
  else if HasPrefix endpoint "manifests/" then
    if String.eqb method "GET" then "pull"
    else if String.eqb method "PUT" then "push"
    else if String.eqb method "DELETE" then "delete"
    else "pull"
  else if HasPrefix endpoint "blobs/" then
    if String.eqb method "GET" then "pull"
    else if String.eqb method "DELETE" then "delete"
    else "pull"
  else if String.eqb endpoint "uploads" || HasPrefix endpoint "uploads/" then "push"
  else "pull".

Definition extractScope (r : Request) : string :=
  let path := Path r in
  if HasPrefix path "/v2/" then
    let path := TrimPrefix path "/v2/" in
    if String.eqb path "_catalog" then "registry:catalog:*"
    else if Contains path "/" then
      let parts := Split path "/" in
      if Nat.leb 2 (length parts) then
        let repoName := Join (take (length parts - 1) parts) "/" in
        let endpoint := nth (length parts - 1) parts EmptyString in
        let action := getActionFromEndpoint endpoint (Method r) in
        "repository:" +:+ repoName +:+ ":" +:+ action
      else EmptyString
    else EmptyString
  else EmptyString.

Definition errorResp (code message : string) : Json :=
  JObject [("errors",
            JArray [JObject [("code", JString code);
                             ("message", JString message)]])].

Definition writeErrorResponse (w : ResponseWriter) (code message : string)
    (statusCode : Z) : ResponseWriter :=
  let w := withHeader w (HeaderSet (wHeader w) "Content-Type" "application/json") in
  let w := WriteHeader w statusCode in
  Write w (JsonLine (errorResp code message)).

Definition challengeAuth (m : Middleware) (w : ResponseWriter) (r : Request)
  : ResponseWriter :=
  let scope := extractScope r in
  let authHeader :=
    "Bearer realm=" +:+ dq +:+ realm m +:+ dq +:+ ",service=" +:+ dq
      +:+ service m +:+ dq in
  let authHeader :=
    if negb (String.eqb scope "")
    then authHeader +:+ ",scope=" +:+ dq +:+ scope +:+ dq
    else authHeader in
  let w := withHeader w (HeaderSet (wHeader w) "WWW-Authenticate" authHeader) in
  let w := withHeader w (HeaderSet (wHeader w) "Docker-Distribution-API-Version"
                                   "registry/2.0") in
  writeErrorResponse w "UNAUTHORIZED" "authentication required" StatusUnauthorized.

(** [GetAuthFromContext] and [GetBearerAuthFromContext]: the value under
    the key, when it is there and of the pointer type asserted. *)
Definition GetAuthFromContext (r : Request) : option Auth.AuthHeader := ctxAuth r.

Definition GetBearerAuthFromContext (r : Request) : option Auth.BearerAuth :=
  ctxBearer r.

Definition RequireAuth (r : Request) : Auth.AuthHeader + string :=
  match GetAuthFromContext r with
  | None => inr "authentication required"
  | Some auth =>
      if String.eqb (Auth.ahUsername auth) "" || String.eqb (Auth.ahPassword auth) ""
      then inr "invalid authentication credentials"
      else inl auth
  end.

Section WithExternals.
Context `{Externals}.

Definition extractRegistryURL (r : Request) : string :=
  let registryURL := HeaderGet (Header_ r) "X-Registry-URL" in
  if negb (String.eqb registryURL "") then registryURL
  else match cookieValue (Header_ r) "registry-url" with
       | Some value => value
       | None => "registry-1.docker.io"
       end.

Definition handleBearerAuth {S : Type} (m : Middleware) (w : ResponseWriter)
    (r : Request) (next : Handler S) (st : S) : ResponseWriter * S :=
  let authHeader := HeaderGet (Header_ r) "Authorization" in
  let token := TrimPrefix authHeader "Bearer " in
  if String.eqb token "" then (challengeAuth m w r, st)
  else
    let registryURL := extractRegistryURL r in
    let registryURL :=
      if String.eqb registryURL "" then "registry-1.docker.io" else registryURL in
    let bearerAuth := Auth.mkBearerAuth token registryURL in
    next w (withBearer r bearerAuth) st.

Definition handleBasicAuth {S : Type} (m : Middleware) (w : ResponseWriter)
    (r : Request) (next : Handler S) (st : S) : ResponseWriter * S :=
  match BasicAuth r with
  | None => (challengeAuth m w r, st)
  | Some (username, password) =>
      match Auth.ParseUsername username with
      | inr _ =>
          (writeErrorResponse w "UNAUTHORIZED" "Invalid username format"
                              StatusUnauthorized, st)
      | inl _ =>
          let authCtx := Auth.mkAuthHeader username password in
          next w (withAuth r authCtx) st
      end
  end.

Definition DockerRegistryAuth {S : Type} (m : Middleware) (next : Handler S)
  : Handler S :=
  fun w r st =>
    if String.eqb (Path r) "/v2/" then next w r st
    else
      let authHeader := HeaderGet (Header_ r) "Authorization" in
      if String.eqb authHeader "" then (challengeAuth m w r, st)
      else if HasPrefix authHeader "Bearer " then handleBearerAuth m w r next st
      else handleBasicAuth m w r next st.

End WithExternals.
End Middleware.

(* ===================================================================== *)
(** ** The registry handlers (package registry) *)
(* ===================================================================== *)

Module Registry.
Import GoStrings Http.

(** The server: the token held by the shared Vault client and the
    credential cache, with two histories kept for the proofs, the KV reads
    (token, path) and the requests handed to the HTTP client, newest first. *)
Record ProxyServer : Type := mkProxyServer {
  vaultToken : string;
  cache : Cache.CredentialCache;
  fetched : list (string * string);
  forwarded : list ProxyRequest
}.

Definition NewProxyServer : ProxyServer :=
  mkProxyServer EmptyString Cache.NewCredentialCache [] [].

(** The clock readings of one request: at the cache lookup and at the
    cache store. *)
Record Clock : Type := mkClock {
  atGet : Z;
  atSet : Z
}.

Inductive AuthError : Type :=
| ErrBasicAuthRequired
| ErrInvalidUsername (e : Auth.ParseError)
| ErrVaultFetch (e : Vault.Error).

Inductive ForwardError : Type :=
| ErrCreateRequest (detail : string)
| ErrForward (detail : string)
| ErrCopyBody (detail : string).

Definition parseErrorText (e : Auth.ParseError) : string :=
  match e with
  | Auth.ErrInvalidUsernameFormat =>
      "invalid username format, expected: <registry_type>;<vault_path>;<registry_url>"
  | Auth.ErrUnsupportedRegistryType => "unsupported registry type"
  end.

Definition authErrorText (e : AuthError) : string :=
  match e with
  | ErrBasicAuthRequired => "basic authentication required"
  | ErrInvalidUsername e => "invalid username format: " +:+ parseErrorText e
  | ErrVaultFetch e =>
      "failed to retrieve credentials from Vault: " +:+ Vault.errorText e
  end.

Definition forwardErrorText (e : ForwardError) : string :=
  match e with
  | ErrCreateRequest d => "failed to create proxy request: " +:+ d
  | ErrForward d => "failed to forward request: " +:+ d
  | ErrCopyBody d => "failed to copy response body: " +:+ d
  end.

Definition APIVersionCheck : Middleware.Handler ProxyServer :=
  fun w r p =>
    let w := withHeader w (HeaderSet (wHeader w) "Docker-Distribution-API-Version"
                                     "registry/2.0") in
    (WriteHeader w StatusOK, p).

Definition targetURL (registryURL targetPath rawQuery : string) : string :=
  let registryURL :=
    if negb (HasPrefix registryURL "http://") && negb (HasPrefix registryURL "https://")
    then "https://" +:+ registryURL else registryURL in
  let url := registryURL +:+ "/v2" +:+ targetPath in
  if negb (String.eqb rawQuery "") then url +:+ "?" +:+ rawQuery else url.

(** [for name, values := range src { dst[name] = values }] *)
Definition copyHeaders (src dst : Header) : Header :=
  map_fold (fun name values acc => <[name := values]> acc) dst src.

(** The same loop under the guard [name != "Authorization"]. *)
Definition copyHeadersExceptAuthorization (src dst : Header) : Header :=
  map_fold (fun name values acc =>
              if String.eqb name "Authorization" then acc
              else <[name := values]> acc) dst src.

(** The tail shared by both forwarders: response headers, status, body. *)
Definition relay (w : ResponseWriter) (resp : UpstreamResponse)
  : ResponseWriter * option ForwardError :=
  let w := withHeader w (copyHeaders (rHeader resp) (wHeader w)) in
  let w := WriteHeader w (StatusCode resp) in
  let w := Write w (Stream (rBody resp)) in
  match copyError resp with
  | Some d => (w, Some (ErrCopyBody d))
  | None => (w, None)
  end.

Section WithExternals.
Context `{Externals}.

Definition authenticateAndGetCredentials (clk : Clock) (r : Request)
    (p : ProxyServer)
  : (Auth.Credentials * Auth.RegistryConfig + AuthError) * ProxyServer :=
  match BasicAuth r with
  | None => (inr ErrBasicAuthRequired, p)
  | Some (username, password) =>
      match Auth.ParseUsername username with
      | inr e => (inr (ErrInvalidUsername e), p)
      | inl registryConfig =>
          let p := mkProxyServer password (cache p) (fetched p) (forwarded p) in
          match Cache.Get (cache p) (atGet clk) password
                          (Auth.VaultPath registryConfig) with
          | Some credentials => (inl (credentials, registryConfig), p)
          | None =>
              let reply := kvGet (vaultToken p) (Auth.VaultPath registryConfig) in
              let p := mkProxyServer (vaultToken p) (cache p)
                         ((vaultToken p, Auth.VaultPath registryConfig) :: fetched p)
                         (forwarded p) in
              match Vault.GetCredentials reply with
              | inr e => (inr (ErrVaultFetch e), p)
              | inl credentials =>
                  let c := Cache.Set_ (cache p) (atSet clk) password
                             (Auth.VaultPath registryConfig) credentials in
                  (inl (credentials, registryConfig),
                   mkProxyServer (vaultToken p) c (fetched p) (forwarded p))
              end
          end
      end
  end.

Definition send (w : ResponseWriter) (proxyReq : ProxyRequest) (p : ProxyServer)
  : ResponseWriter * ProxyServer * option ForwardError :=
  let p := mkProxyServer (vaultToken p) (cache p) (fetched p)
                         (proxyReq :: forwarded p) in
  match clientDo proxyReq with
  | inl d => (w, p, Some (ErrForward d))
  | inr resp => let '(w, e) := relay w resp in (w, p, e)
  end.

Definition proxyBearerRequest (w : ResponseWriter) (r : Request)
    (bearerAuth : Auth.BearerAuth) (targetPath : string) (p : ProxyServer)
  : ResponseWriter * ProxyServer * option ForwardError :=
  let url := targetURL (Auth.baRegistryURL bearerAuth) targetPath (RawQuery r) in
  match newRequestError (Method r) url with
  | Some d => (w, p, Some (ErrCreateRequest d))
  | None =>
      let proxyReq :=
        mkProxyRequest (Method r) url (copyHeaders (Header_ r) ∅) (Body r) in
      send w proxyReq p
  end.

Definition proxyRequest (w : ResponseWriter) (r : Request)
    (credentials : Auth.Credentials) (registryConfig : Auth.RegistryConfig)
    (targetPath : string) (p : ProxyServer)
  : ResponseWriter * ProxyServer * option ForwardError :=
  let url := targetURL (Auth.RegistryURL registryConfig) targetPath (RawQuery r) in
  match newRequestError (Method r) url with
  | Some d => (w, p, Some (ErrCreateRequest d))
  | None =>
      let h := copyHeadersExceptAuthorization (Header_ r) ∅ in
      let h := SetBasicAuth h (Auth.Username credentials)
                              (Auth.Password credentials) in
      send w (mkProxyRequest (Method r) url h (Body r)) p
  end.

(** The body shared by the four authenticated handlers, which differ in
    how they compute the target path. *)
Definition serve (clk : Clock) (targetPath : string)
  : Middleware.Handler ProxyServer :=
  fun w r p =>
    match ctxBearer r with
    | Some bearerAuth =>
        match proxyBearerRequest w r bearerAuth targetPath p with
        | (w, p, Some err) =>
            (Error w ("failed to proxy request: " +:+ forwardErrorText err)
                   StatusInternalServerError, p)
        | (w, p, None) => (w, p)
        end
    | None =>
        match authenticateAndGetCredentials clk r p with
        | (inr err, p) => (Error w (authErrorText err) StatusUnauthorized, p)
        | (inl (credentials, registryConfig), p) =>
            match proxyRequest w r credentials registryConfig targetPath p with
            | (w, p, Some err) =>
                (Error w ("failed to proxy request: " +:+ forwardErrorText err)
                       StatusInternalServerError, p)
            | (w, p, None) => (w, p)
            end
        end
    end.

Definition GetCatalog (clk : Clock) : Middleware.Handler ProxyServer :=
  fun w r p => serve clk "/_catalog" w r p.

Definition GetTags (clk : Clock) : Middleware.Handler ProxyServer :=
  fun w r p =>
    let repoPath := TrimSuffix (TrimPrefix (Path r) "/v2/") "/tags/list" in
    serve clk ("/" +:+ repoPath +:+ "/tags/list") w r p.

Definition GetManifest (clk : Clock) : Middleware.Handler ProxyServer :=
  fun w r p => serve clk (TrimPrefix (Path r) "/v2") w r p.

Definition GetBlob (clk : Clock) : Middleware.Handler ProxyServer :=
  fun w r p => serve clk (TrimPrefix (Path r) "/v2") w r p.

(** The authenticated routes of [setupRoutes] in main.go. *)
Inductive Route : Type :=
| RouteCatalog
| RouteTags
| RouteManifest
| RouteBlob.

Definition handler (clk : Clock) (route : Route) : Middleware.Handler ProxyServer :=
  match route with
  | RouteCatalog => GetCatalog clk
  | RouteTags => GetTags clk
  | RouteManifest => GetManifest clk
  | RouteBlob => GetBlob clk
  end.

End WithExternals.
End Registry.

(* ===================================================================== *)
(** ** The vocabulary of the written specification *)
(* ===================================================================== *)

Module Spec.
Import GoStrings Http.

(** [u] consists of the three segments [a], [b] and [c], cut at its first
    two semicolons: the third segment may hold further semicolons. *)
Definition Segments (u a b c : string) : Prop :=
  u = a +:+ ";" +:+ b +:+ ";" +:+ c
  /\ occurs ";"%char a = false /\ occurs ";"%char b = false.

Definition NonEmptyTrimmed (a b c : string) : Prop :=
  TrimSpace a <> "" /\ TrimSpace b <> "" /\ TrimSpace c <> "".

Definition KnownType (t : string) : Prop :=
  t = "docker" \/ t = "ecr" \/ t = "gcr".

(** The round trip as the specification words it: the locator's fields are
    the three input segments themselves. *)
Definition ExactRoundTrip (a b c : string) : Prop :=
  occurs ";"%char a = false -> occurs ";"%char b = false ->
  NonEmptyTrimmed a b c -> KnownType a ->
  Auth.ParseUsername (a +:+ ";" +:+ b +:+ ";" +:+ c)
  = inl (Auth.mkRegistryConfig a b c).

(** A secret's field is usable when it is present and a string. *)
Definition hasString (data : gmap string Vault.Value) (key : string) : Prop :=
  exists v, data !! key = Some (Vault.VString v).

Definition hasNonEmptyString (data : gmap string Vault.Value) (key : string) : Prop :=
  exists v, data !! key = Some (Vault.VString v) /\ v <> "".

Definition MalformedSecret (e : Vault.Error) : Prop :=
  e = Vault.ErrUsernameNotFound \/ e = Vault.ErrPasswordNotFound.

(** The resolver's check as the specification words it: a record without
    a non-empty username and a non-empty password is refused. *)
Definition RefusesEmptyFields : Prop :=
  forall data,
    ~ (hasNonEmptyString data "username" /\ hasNonEmptyString data "password") ->
    exists e, Vault.GetCredentials (Vault.KVData data) = inr e /\ MalformedSecret e.

(** The path each route hands to the forwarder. *)
Definition routeTarget (route : Registry.Route) (r : Request) : string :=
  match route with
  | Registry.RouteCatalog => "/_catalog"
  | Registry.RouteTags =>
      "/" +:+ TrimSuffix (TrimPrefix (Path r) "/v2/") "/tags/list" +:+ "/tags/list"
  | Registry.RouteManifest | Registry.RouteBlob => TrimPrefix (Path r) "/v2"
  end.

(** The shape of the registry API's error body:
    an object with the one field "errors", an array of one object with
    the string fields "code" and "message". *)
Definition isErrorEnvelope (body : list Chunk) : bool :=
  match body with
  | [JsonLine (JObject [(k, JArray [JObject [(k1, JString _); (k2, JString _)]])])] =>
      String.eqb k "errors" && String.eqb k1 "code" && String.eqb k2 "message"
  | _ => false
  end.


(** A lower-case hexadecimal digit. *)
Definition isHexDigit (c : ascii) : bool :=
  isDigit c || (Nat.leb 97 (code c) && Nat.leb (code c) 102).

(** What a handler has written once the upstream request [out] was built
    and handed to the client: the three cases of the forwarders' tail
    followed by the handler's error report. *)
Definition conclude `{Externals} (w : ResponseWriter) (out : ProxyRequest)
  : ResponseWriter :=
  match clientDo out with
  | inl d =>
      Error w ("failed to proxy request: "
                 +:+ Registry.forwardErrorText (Registry.ErrForward d))
            StatusInternalServerError
  | inr resp =>
      match copyError resp with
      | None => (Registry.relay w resp).1
      | Some d =>
          Error (Registry.relay w resp).1
                ("failed to proxy request: "
                   +:+ Registry.forwardErrorText (Registry.ErrCopyBody d))
                StatusInternalServerError
      end
  end.

(** A handler that does nothing but remember the request it is given:
    composed with the middleware it shows whether, and with which context,
    the next handler is reached. *)
Definition probe : Middleware.Handler (option Request) :=
  fun w r _ => (w, Some r).

Definition setMethod (r : Request) (method : string) : Request :=
  mkRequest method (Path r) (RawQuery r) (Header_ r) (Body r)
            (ctxAuth r) (ctxBearer r).

End Spec.

(* ===================================================================== *)
(** ** A concrete environment, for running the server on examples *)
(* ===================================================================== *)

Module Sample.
Import GoStrings Http.

Definition secret : gmap string Vault.Value :=
  <["username" := Vault.VString "alice"]>
    (<["password" := Vault.VString "s3cret"]> ∅).

(** A record whose username is present but empty. *)
Definition blankUser : gmap string Vault.Value :=
  <["username" := Vault.VString ""]> (<["password" := Vault.VString "p"]> ∅).

(** Vault holds [secret] at docker-hub and [blankUser] at blank, readable
    with the token tok; the registry at down.example.com is unreachable;
    four Basic headers are known, each with the password tok. *)
Definition externals : Externals := {|
  parseBasicAuth := fun v =>
    if String.eqb v "Basic ZG9ja2VyO2RvY2tlci1odWI7cmVnaXN0cnkuZXhhbXBsZS5jb206dG9r"
    then Some ("docker;docker-hub;registry.example.com", "tok")
    else if String.eqb v "Basic ZG9ja2VyO21pc3Npbmc7cmVnaXN0cnkuZXhhbXBsZS5jb206dG9r"
    then Some ("docker;missing;registry.example.com", "tok")
    else if String.eqb v "Basic ZG9ja2VyO2RvY2tlci1odWI7ZG93bi5leGFtcGxlLmNvbTp0b2s="
    then Some ("docker;docker-hub;down.example.com", "tok")
    else if String.eqb v "Basic ZG9ja2VyO2JsYW5rO3JlZ2lzdHJ5LmV4YW1wbGUuY29tOnRvaw=="
    then Some ("docker;blank;registry.example.com", "tok")
    else None;
  cookieValue := fun h name =>
    match h !! "Cookie" with
    | Some [v] =>
        if HasPrefix v (name +:+ "=") then Some (TrimPrefix v (name +:+ "="))
        else None
    | _ => None
    end;
  kvGet := fun token path =>
    if negb (String.eqb token "tok") then Vault.KVError "permission denied"
    else if String.eqb path "docker-hub" then Vault.KVData secret
    else if String.eqb path "blank" then Vault.KVData blankUser
    else Vault.KVError "no secret at this path";
  newRequestError := fun _ _ => None;
  clientDo := fun req =>
    if HasPrefix (pURL req) "https://down.example.com"
    then inl "dial tcp: connection refused"
    else inr (mkUpstreamResponse 200 {[ "Content-Type" := ["application/json"] ]}
                                 "{}" None)
|}.

Definition middleware : Middleware.Middleware :=
  Middleware.NewMiddleware "https://auth.docker.io/token" "registry.docker.io".

Definition request (method path : string) (h : Header) : Request :=
  mkRequest method path "" h "" None None.

Definition basic (authorization : string) : Header :=
  {[ "Authorization" := [authorization] ]}.

Definition clock : Registry.Clock := Registry.mkClock 1000 1001.

End Sample.

(* ===================================================================== *)
(** * Properties *)
(* ===================================================================== *)

(** ** Strings: slicing, searching and splitting *)

Section StringFacts.
Import GoStrings.

Lemma slice_to_app (a r : string) : slice_to (len a) (a +:+ r) = a.
Proof. induction a as [|c a IH]; simpl; [by destruct r | by rewrite IH]. Qed.

Lemma slice_from_app (a r : string) (n : nat) :
  slice_from (len a + n) (a +:+ r) = slice_from n r.
Proof. induction a as [|c a IH]; simpl; [done | apply IH]. Qed.

Lemma slice_from_len_app (a r : string) : slice_from (len a) (a +:+ r) = r.
Proof.
  rewrite <- (Nat.add_0_r (len a)), slice_from_app. by destruct r.
Qed.

Lemma HasPrefix_app (a r : string) : HasPrefix (a +:+ r) a = true.
Proof.
  induction a as [|c a IH]; simpl; [done|]. by rewrite Ascii.eqb_refl.
Qed.

Lemma HasPrefix_byte (c d : ascii) (r : string) :
  HasPrefix (String d r) (String c EmptyString) = Ascii.eqb d c.
Proof. simpl. by destruct (Ascii.eqb d c). Qed.

(** Searching for one byte: the index found is the length of the longest
    prefix free of that byte. *)
Lemma Index_byte_app (c : ascii) (a r : string) :
  occurs c a = false ->
  Index (a +:+ String c r) (String c EmptyString) = Some (len a).
Proof.
  induction a as [|d a IH]; intros Hfree.
  - change (EmptyString +:+ String c r) with (String c r).
    unfold Index. rewrite HasPrefix_byte, Ascii.eqb_refl. done.
  - simpl in Hfree. apply orb_false_iff in Hfree as [Hd Ha].
    change (String d a +:+ String c r) with (String d (a +:+ String c r)).
    change (Index (String d (a +:+ String c r)) (String c EmptyString))
      with (if HasPrefix (String d (a +:+ String c r)) (String c EmptyString)
            then Some O
            else S <$> Index (a +:+ String c r) (String c EmptyString)).
    rewrite HasPrefix_byte, Hd, (IH Ha). done.
Qed.

Lemma Index_byte_None (c : ascii) (s : string) :
  occurs c s = false -> Index s (String c EmptyString) = None.
Proof.
  induction s as [|d s IH]; intros Hfree; [done|].
  simpl in Hfree. apply orb_false_iff in Hfree as [Hd Hs].
  change (Index (String d s) (String c EmptyString))
    with (if HasPrefix (String d s) (String c EmptyString)
          then Some O else S <$> Index s (String c EmptyString)).
  rewrite HasPrefix_byte, Hd, (IH Hs). done.
Qed.

Lemma Index_byte_Some (c : ascii) (s : string) (m : nat) :
  Index s (String c EmptyString) = Some m ->
  exists a r, s = a +:+ String c r /\ occurs c a = false /\ m = len a.
Proof.
  revert m. induction s as [|d s IH]; intros m Hm; [done|].
  change (Index (String d s) (String c EmptyString))
    with (if HasPrefix (String d s) (String c EmptyString)
          then Some O else S <$> Index s (String c EmptyString)) in Hm.
  rewrite HasPrefix_byte in Hm.
  destruct (Ascii.eqb d c) eqn:Hd.
  - apply Ascii.eqb_eq in Hd as ->. inversion Hm; subst.
    by exists EmptyString, s.
  - destruct (Index s (String c EmptyString)) as [k|] eqn:Hk; [|done].
    inversion Hm; subst. destruct (IH k eq_refl) as (a & r & -> & Ha & ->).
    exists (String d a), r. simpl. by rewrite Hd, Ha.
Qed.

Lemma Index_byte_occurs (c : ascii) (s : string) :
  occurs c s = true -> exists m, Index s (String c EmptyString) = Some m.
Proof.
  intros Hocc. destruct (Index s (String c EmptyString)) as [m|] eqn:Hm; [eauto|].
  exfalso. clear -Hocc Hm. induction s as [|d s IH]; [done|].
  change (Index (String d s) (String c EmptyString))
    with (if HasPrefix (String d s) (String c EmptyString)
          then Some O else S <$> Index s (String c EmptyString)) in Hm.
  rewrite HasPrefix_byte in Hm. simpl in Hocc.
  destruct (Ascii.eqb d c); [done|]. simpl in Hocc.
  destruct (Index s (String c EmptyString)); [done|]. by apply IH.
Qed.

(** One cut of [genSplit] at a one-byte separator. *)
Lemma genSplit_cut (k : nat) (c : ascii) (a r : string) :
  occurs c a = false ->
  genSplit (S k) (a +:+ String c r) (String c EmptyString)
  = a :: genSplit k r (String c EmptyString).
Proof.
  intros Hfree. simpl. rewrite (Index_byte_app c a r Hfree).
  rewrite slice_to_app, slice_from_app. done.
Qed.

End StringFacts.

(** ** The locator parser *)

Section Locator.
Import GoStrings Auth Spec.

Lemma isValidRegistryType_known (t : string) :
  isValidRegistryType t = true <-> KnownType t.
Proof.
  unfold isValidRegistryType, KnownType.
  rewrite !orb_true_iff, !String.eqb_eq. tauto.
Qed.

(** Bounded by three, the split of a string with segments [a], [b], [c]
    returns exactly these. *)
Lemma SplitN3_segments (u a b c : string) :
  Segments u a b c -> SplitN u ";" 3 = [a; b; c].
Proof.
  intros (-> & Ha & Hb). unfold SplitN.
  change (a +:+ ";" +:+ b +:+ ";" +:+ c)
    with (a +:+ String ";" (b +:+ String ";" c)).
  rewrite (genSplit_cut 1 ";" a _ Ha), (genSplit_cut 0 ";" b _ Hb). done.
Qed.

(** Conversely, three parts come only from such a string. *)
Lemma SplitN3_three (u : string) (parts : list string) :
  SplitN u ";" 3 = parts -> length parts = 3%nat ->
  exists a b c, parts = [a; b; c] /\ Segments u a b c.
Proof.
  unfold SplitN. simpl. intros <-.
  destruct (Index u ";") as [m|] eqn:Hm; [|done].
  destruct (Index_byte_Some _ _ _ Hm) as (a & r & -> & Ha & ->).
  rewrite slice_to_app, slice_from_app. simpl.
  destruct (Index r ";") as [k|] eqn:Hk; [|done].
  destruct (Index_byte_Some _ _ _ Hk) as (b & c & -> & Hb & ->).
  rewrite slice_to_app, slice_from_app. simpl. intros _.
  exists a, b, c. split; [done|]. by split.
Qed.

Lemma Segments_unique (u a b c a' b' c' : string) :
  Segments u a b c -> Segments u a' b' c' -> a = a' /\ b = b' /\ c = c'.
Proof.
  intros H1 H2. apply SplitN3_segments in H1, H2.
  rewrite H1 in H2. by inversion H2.
Qed.

(** What [ParseUsername] returns on a string with three segments. *)
Lemma ParseUsername_segments (u a b c : string) :
  Segments u a b c ->
  ParseUsername u =
    if String.eqb (TrimSpace a) "" || String.eqb (TrimSpace b) ""
       || String.eqb (TrimSpace c) ""
    then inr ErrInvalidUsernameFormat
    else if negb (isValidRegistryType (TrimSpace a))
    then inr ErrUnsupportedRegistryType
    else inl (mkRegistryConfig (TrimSpace a) (TrimSpace b) (TrimSpace c)).
Proof.
  intros Hseg. unfold ParseUsername. by rewrite (SplitN3_segments _ _ _ _ Hseg).
Qed.

(** ... and on any other string. *)
Lemma ParseUsername_no_segments (u : string) :
  (forall a b c, ~ Segments u a b c) ->
  ParseUsername u = inr ErrInvalidUsernameFormat.
Proof.
  intros Hno. unfold ParseUsername.
  destruct (SplitN u ";" 3) as [|p0 [|p1 [|p2 [|p3 rest]]]] eqn:Hsplit; try done.
  destruct (SplitN3_three u _ Hsplit eq_refl) as (a & b & c & _ & Hseg).
  by destruct (Hno a b c).
Qed.

Lemma Segments_dec (u : string) :
  (exists a b c, Segments u a b c) \/ (forall a b c, ~ Segments u a b c).
Proof.
  destruct (SplitN u ";" 3) as [|p0 [|p1 [|p2 [|p3 rest]]]] eqn:Hsplit;
    try (right; intros a b c Hseg; apply SplitN3_segments in Hseg; congruence).
  left. destruct (SplitN3_three u _ Hsplit eq_refl) as (a & b & c & _ & Hseg).
  eauto.
Qed.

Lemma NonEmptyTrimmed_eqb (a b c : string) :
  String.eqb (TrimSpace a) "" || String.eqb (TrimSpace b) ""
    || String.eqb (TrimSpace c) "" = false <-> NonEmptyTrimmed a b c.
Proof.
  unfold NonEmptyTrimmed. rewrite !orb_false_iff, !String.eqb_neq. tauto.
Qed.

(** C6. [ParseUsername] fails with the invalid-format error exactly when
    the string does not consist of three segments (cut at the first two
    semicolons) that are all non-empty after trimming, and with the
    unsupported-type error exactly when it does and the trimmed first
    segment is none of docker, ecr, gcr. *)
Theorem ParseUsername_errors (u : string) :
  (ParseUsername u = inr ErrInvalidUsernameFormat
   <-> ~ exists a b c, Segments u a b c /\ NonEmptyTrimmed a b c)
  /\ (ParseUsername u = inr ErrUnsupportedRegistryType
      <-> exists a b c, Segments u a b c /\ NonEmptyTrimmed a b c
                        /\ ~ KnownType (TrimSpace a)).
Proof.
  destruct (Segments_dec u) as [(a & b & c & Hseg)|Hno].
  - rewrite (ParseUsername_segments _ _ _ _ Hseg).
    destruct (String.eqb (TrimSpace a) "" || String.eqb (TrimSpace b) ""
              || String.eqb (TrimSpace c) "") eqn:Hempty.
    + assert (~ NonEmptyTrimmed a b c) as Hne.
      { rewrite <- NonEmptyTrimmed_eqb. congruence. }
      split; split; try done.
      * intros _ (a' & b' & c' & Hseg' & Hne').
        destruct (Segments_unique _ _ _ _ _ _ _ Hseg Hseg') as (-> & -> & ->).
        done.
      * intros (a' & b' & c' & Hseg' & Hne' & _).
        destruct (Segments_unique _ _ _ _ _ _ _ Hseg Hseg') as (-> & -> & ->).
        done.
    + apply NonEmptyTrimmed_eqb in Hempty.
      destruct (isValidRegistryType (TrimSpace a)) eqn:Hvalid; simpl.
      * apply isValidRegistryType_known in Hvalid.
        split; split; try done.
        -- intros Hno. destruct Hno. eauto.
        -- intros (a' & b' & c' & Hseg' & _ & Hunk).
           destruct (Segments_unique _ _ _ _ _ _ _ Hseg Hseg') as (-> & -> & ->).
           done.
      * assert (~ KnownType (TrimSpace a)) as Hunk.
        { rewrite <- isValidRegistryType_known. congruence. }
        split; split; try done.
        -- intros Hno. destruct Hno. eauto.
        -- intros _. eauto 10.
  - rewrite (ParseUsername_no_segments u Hno). split; split; try done.
    + intros _ (a & b & c & Hseg & _). by destruct (Hno a b c).
    + intros (a & b & c & Hseg & _). by destruct (Hno a b c).
Qed.

(** C7, as amended.  On a string of three segments that are non-empty
    after trimming and whose trimmed first segment is a known type, the
    parse succeeds and the locator's fields are the three segments with
    their surrounding white space trimmed; they are the segments
    themselves when these carry no surrounding white space.  The third
    segment is everything after the second semicolon, further semicolons
    included. *)
Theorem ParseUsername_roundtrip (a b c : string) :
  occurs ";"%char a = false -> occurs ";"%char b = false ->
  NonEmptyTrimmed a b c -> KnownType (TrimSpace a) ->
  ParseUsername (a +:+ ";" +:+ b +:+ ";" +:+ c)
  = inl (mkRegistryConfig (TrimSpace a) (TrimSpace b) (TrimSpace c))
  /\ (TrimSpace a = a -> TrimSpace b = b -> TrimSpace c = c ->
      ParseUsername (a +:+ ";" +:+ b +:+ ";" +:+ c)
      = inl (mkRegistryConfig a b c)).
Proof.
  intros Ha Hb Hne Hknown.
  assert (ParseUsername (a +:+ ";" +:+ b +:+ ";" +:+ c)
          = inl (mkRegistryConfig (TrimSpace a) (TrimSpace b) (TrimSpace c)))
    as Hparse.
  { rewrite (ParseUsername_segments _ a b c) by done.
    apply NonEmptyTrimmed_eqb in Hne. rewrite Hne.
    apply isValidRegistryType_known in Hknown. by rewrite Hknown. }
  split; [done|]. intros Ea Eb Ec. by rewrite Hparse, Ea, Eb, Ec.
Qed.

Lemma ParseUsername_roundtrip_witness :
  ParseUsername "docker;secret/hub;registry.example.com;a;b"
  = inl (mkRegistryConfig "docker" "secret/hub" "registry.example.com;a;b").
Proof.
  apply (ParseUsername_roundtrip "docker" "secret/hub" "registry.example.com;a;b");
    try reflexivity.
  - repeat split; vm_compute; discriminate.
  - left; reflexivity.
Defined.

(** C7, as the specification words it, fails: a segment with surrounding
    white space is non-empty after trimming, yet the field returned is the
    trimmed segment, not the segment itself. *)
Lemma ParseUsername_roundtrip_not_exact :
  ~ ExactRoundTrip "docker" " secret/hub " "registry.example.com".
Proof.
  unfold ExactRoundTrip. intros Hclaim.
  assert (NonEmptyTrimmed "docker" " secret/hub " "registry.example.com") as Hne.
  { repeat split; vm_compute; discriminate. }
  specialize (Hclaim eq_refl eq_refl Hne (or_introl eq_refl)).
  vm_compute in Hclaim. discriminate.
Qed.

End Locator.

(** ** The credential cache *)

Section CacheFacts.
Import GoCache.
Context {V : Type}.
Implicit Types (c : Cache V) (k : string) (x : V).

Lemma expired_false_iff (it : Item V) (now : Z) :
  expired it now = false <-> (Expiration it <= 0 \/ now <= Expiration it).
Proof. unfold expired. rewrite andb_false_iff, !Z.ltb_ge. tauto. Qed.

Lemma expired_true_iff (it : Item V) (now : Z) :
  expired it now = true <-> (0 < Expiration it /\ Expiration it < now).
Proof. unfold expired. rewrite andb_true_iff, !Z.ltb_lt. tauto. Qed.

Lemma items_Set c now k x d :
  items (Set_ c now k x d) !! k
  = Some (mkItem x (let d := if d =? DefaultExpiration then defaultExpiration c
                             else d in
                    if 0 <? d then now + d else 0)).
Proof. unfold Set_. simpl. by rewrite lookup_insert_eq. Qed.

(** A read of the key just written sees the value while the clock has not
    passed the expiration. *)
Lemma Get_Set_fresh c now now' k x :
  now' <= now + defaultExpiration c \/ defaultExpiration c <= 0 ->
  Get (Set_ c now k x DefaultExpiration) now' k = Some x.
Proof.
  intros Hfresh. unfold Get. rewrite items_Set. simpl.
  destruct (0 <? defaultExpiration c) eqn:Hd.
  - apply Z.ltb_lt in Hd.
    assert (expired (mkItem x (now + defaultExpiration c)) now' = false) as ->;
      [|done].
    apply expired_false_iff. simpl. lia.
  - by assert (expired (mkItem x 0) now' = false) as ->
      by (apply expired_false_iff; simpl; lia).
Qed.

(** Past the expiration the read misses, whatever the janitor did. *)
Lemma Get_Set_stale c now now' k x :
  0 < defaultExpiration c -> now + defaultExpiration c < now' -> 0 <= now ->
  Get (Set_ c now k x DefaultExpiration) now' k = None.
Proof.
  intros Hd Hlate Hnow. unfold Get. rewrite items_Set. simpl.
  apply Z.ltb_lt in Hd as Hd'. rewrite Hd'.
  by assert (expired (mkItem x (now + defaultExpiration c)) now' = true) as ->
    by (apply expired_true_iff; simpl; lia).
Qed.

(** A write under one key leaves the reads of every other key alone. *)
Lemma Get_Set_other c now now' k k' x d :
  k <> k' -> Get (Set_ c now k x d) now' k' = Get c now' k'.
Proof.
  intros Hne. unfold Get, Set_. simpl. by rewrite lookup_insert_ne.
Qed.

(** The sweep removes only entries that later reads no longer see. *)
Lemma Get_DeleteExpired c sweep now k :
  sweep <= now -> Get (DeleteExpired c sweep) now k = Get c now k.
Proof.
  intros Hle. unfold Get, DeleteExpired. simpl.
  rewrite map_lookup_filter. destruct (items c !! k) as [it|]; [|done].
  simpl. destruct (expired it sweep) eqn:Hsw.
  - rewrite option_guard_False by (simpl; congruence). simpl.
    apply expired_true_iff in Hsw.
    by assert (expired it now = true) as ->
      by (apply expired_true_iff; lia).
  - by rewrite option_guard_True.
Qed.

End CacheFacts.

Section CredentialCache.
Import Auth Cache.

Lemma New_defaultExpiration :
  GoCache.defaultExpiration NewCredentialCache = DefaultCacheTTL.
Proof. reflexivity. Qed.

(** The key depends on the token and the path only through their join
    with a colon. *)
Lemma generateCacheKey_join (t p t' p' : string) :
  t +:+ ":" +:+ p = t' +:+ ":" +:+ p' ->
  generateCacheKey t p = generateCacheKey t' p'.
Proof. unfold generateCacheKey. by intros ->. Qed.

(** Pairs with distinct keys are isolated from one another. *)
Lemma Get_Set_isolated c now now' (t p t' p' : string) creds :
  generateCacheKey t p <> generateCacheKey t' p' ->
  Get (Set_ c now t p creds) now' t' p' = Get c now' t' p'.
Proof. intros Hne. unfold Get, Set_. by apply Get_Set_other. Qed.

(** C1.  The pairs ("a:b", "c") and ("a", "b:c") are distinct, yet both are
    hashed as "a:b:c": they get the same key, and the credentials stored
    under the first are returned by a read of the second. *)
Theorem cache_key_collision :
  ("a:b", "c") <> ("a", "b:c")
  /\ generateCacheKey "a:b" "c" = generateCacheKey "a" "b:c"
  /\ forall now creds,
       Get NewCredentialCache now "a" "b:c" = None
       /\ Get (Set_ NewCredentialCache now "a:b" "c" creds) now "a" "b:c"
          = Some creds.
Proof.
  assert (generateCacheKey "a:b" "c" = generateCacheKey "a" "b:c") as Hkey
    by (by apply generateCacheKey_join).
  split; [done|]. split; [done|]. intros now creds. split; [done|].
  unfold Get, Set_. rewrite Hkey. apply Get_Set_fresh.
  rewrite New_defaultExpiration. left. unfold DefaultCacheTTL, minute. lia.
Qed.

(** C5.  In a cache whose default TTL is positive, as that of
    [NewCredentialCache] is, and with a clock that reads a time after the
    epoch: a read at or before the expiration returns the credentials just
    stored, immediately after the store in particular; a read once more
    than the TTL has elapsed misses although the entry is still in the
    table, no sweep having run; and a sweep that ran in between changes no
    later read. *)
Theorem cache_ttl c (now : Z) (t p : string) (creds : Credentials) :
  0 < GoCache.defaultExpiration c -> 0 <= now ->
  let c' := Set_ c now t p creds in
  Get c' now t p = Some creds
  /\ (forall now', now' <= now + GoCache.defaultExpiration c ->
                   Get c' now' t p = Some creds)
  /\ (forall now', now + GoCache.defaultExpiration c < now' ->
        Get c' now' t p = None
        /\ is_Some (GoCache.items c' !! generateCacheKey t p))
  /\ (forall sweep now', sweep <= now' ->
        Get (GoCache.DeleteExpired c' sweep) now' t p = Get c' now' t p).
Proof.
  intros Hd Hnow c'. subst c'. unfold Get, Set_.
  generalize (generateCacheKey t p). intros k. repeat split.
  - apply Get_Set_fresh. lia.
  - intros now' Hnow'. apply Get_Set_fresh. lia.
  - by apply Get_Set_stale.
  - rewrite items_Set. eauto.
  - intros sweep now' Hle. by apply Get_DeleteExpired.
Qed.

Lemma cache_ttl_witness :
  let creds := mkCredentials "alice" "s3cret" "" in
  let c' := Set_ NewCredentialCache 1000 "tok" "docker-hub" creds in
  Get c' 1000 "tok" "docker-hub" = Some creds
  /\ Get c' (1000 + DefaultCacheTTL + 1) "tok" "docker-hub" = None.
Proof.
  intros creds c'.
  destruct (cache_ttl NewCredentialCache 1000 "tok" "docker-hub" creds)
    as (Hnow & _ & Hlate & _).
  - rewrite New_defaultExpiration. unfold DefaultCacheTTL, minute. lia.
  - lia.
  - split; [exact Hnow|]. apply Hlate.
    rewrite New_defaultExpiration. lia.
Defined.

End CredentialCache.

(** ** The resolver *)

Lemma classic_hasString (data : gmap string Vault.Value) (key : string) :
  Spec.hasString data key \/ ~ Spec.hasString data key.
Proof.
  unfold Spec.hasString. destruct (data !! key) as [[v|]|]; [eauto| |];
    right; intros [v Hv]; done.
Qed.

Section Resolver.
Import Http Auth Registry Spec.
Context `{Externals}.

Lemma asString_None (data : gmap string Vault.Value) (key : string) :
  Vault.asString (data !! key) = None <-> ~ hasString data key.
Proof.
  unfold hasString. destruct (data !! key) as [[v|]|]; simpl; split;
    try done; try (intros _ [v' Hv']; done).
  intros Hno. destruct Hno. eauto.
Qed.

(** What [GetCredentials] makes of a data map. *)
Lemma GetCredentials_data (data : gmap string Vault.Value) :
  (~ hasString data "username" ->
   Vault.GetCredentials (Vault.KVData data) = inr Vault.ErrUsernameNotFound)
  /\ (hasString data "username" -> ~ hasString data "password" ->
      Vault.GetCredentials (Vault.KVData data) = inr Vault.ErrPasswordNotFound)
  /\ (forall u pw,
        data !! "username" = Some (Vault.VString u) ->
        data !! "password" = Some (Vault.VString pw) ->
        Vault.GetCredentials (Vault.KVData data)
        = inl (mkCredentials u pw
                 (match data !! "email" with
                  | Some (Vault.VString e) => e
                  | _ => ""
                  end))).
Proof.
  unfold Vault.GetCredentials. repeat split.
  - intros Hno. apply asString_None in Hno. by rewrite Hno.
  - intros [u Hu] Hno. apply asString_None in Hno. by rewrite Hu, Hno.
  - intros u pw -> ->. simpl. by destruct (data !! "email") as [[e|]|].
Qed.

(** C3, as amended.  On a cache miss the resolver reads the secret store
    once, with the request's token and the locator's path.  If the record
    returned has no username or no password of string type, it fails with
    the error of the missing field and the cache is left as it was.
    Otherwise it succeeds with these two strings, empty ones included, and
    the email, which is empty when the record has none; the credentials
    are in the cache and are returned. *)
Theorem resolver_on_miss (clk : Clock) (r : Request) (p : ProxyServer)
    (username password : string) (cfg : RegistryConfig)
    (data : gmap string Vault.Value) :
  BasicAuth r = Some (username, password) ->
  ParseUsername username = inl cfg ->
  Cache.Get (cache p) (atGet clk) password (VaultPath cfg) = None ->
  kvGet password (VaultPath cfg) = Vault.KVData data ->
  let res := authenticateAndGetCredentials clk r p in
  fetched (snd res) = (password, VaultPath cfg) :: fetched p
  /\ (~ (hasString data "username" /\ hasString data "password") ->
      (exists e, fst res = inr (ErrVaultFetch e) /\ MalformedSecret e)
      /\ cache (snd res) = cache p)
  /\ (forall u pw,
        data !! "username" = Some (Vault.VString u) ->
        data !! "password" = Some (Vault.VString pw) ->
        let creds := mkCredentials u pw
                       (match data !! "email" with
                        | Some (Vault.VString e) => e
                        | _ => ""
                        end) in
        fst res = inl (creds, cfg)
        /\ (data !! "email" = None -> Email creds = "")
        /\ Cache.Get (cache (snd res)) (atSet clk) password (VaultPath cfg)
           = Some creds).
Proof.
  intros Hbasic Hparse Hmiss Hreply res. subst res.
  unfold authenticateAndGetCredentials.
  rewrite Hbasic, Hparse. cbn [cache vaultToken fetched forwarded].
  rewrite Hmiss, Hreply.
  destruct (GetCredentials_data data) as (Huser & Hpass & Hok).
  repeat split.
  - by destruct (Vault.GetCredentials (Vault.KVData data)).
  - destruct (classic_hasString data "username") as [Hu|Hu].
    + destruct (classic_hasString data "password") as [Hp|Hp]; [tauto|].
      rewrite (Hpass Hu Hp). exists Vault.ErrPasswordNotFound.
      split; [done | by right].
    + rewrite (Huser Hu). exists Vault.ErrUsernameNotFound.
      split; [done | by left].
  - destruct (classic_hasString data "username") as [Hu|Hu].
    + destruct (classic_hasString data "password") as [Hp|Hp]; [tauto|].
      by rewrite (Hpass Hu Hp).
    + by rewrite (Huser Hu).
  - by rewrite (Hok u pw).
  - by intros ->.
  - rewrite (Hok u pw) by done. cbn [snd cache].
    unfold Cache.Get, Cache.Set_. apply Get_Set_fresh.
    destruct (Z_le_gt_dec (GoCache.defaultExpiration (cache p)) 0); [by right|].
    left. lia.
Qed.

End Resolver.

Section ResolverExamples.
Import Http Auth Registry Spec.

Lemma resolver_on_miss_witness :
  let r := Sample.request "GET" "/v2/_catalog"
             (Sample.basic "Basic ZG9ja2VyO2RvY2tlci1odWI7cmVnaXN0cnkuZXhhbXBsZS5jb206dG9r") in
  let cfg := mkRegistryConfig "docker" "docker-hub" "registry.example.com" in
  let res := @authenticateAndGetCredentials Sample.externals Sample.clock r
               NewProxyServer in
  fetched (snd res) = [("tok", "docker-hub")]
  /\ fst res = inl (mkCredentials "alice" "s3cret" "", cfg).
Proof.
  intros r cfg res.
  destruct (@resolver_on_miss Sample.externals Sample.clock r NewProxyServer
              "docker;docker-hub;registry.example.com" "tok" cfg Sample.secret)
    as (Hfetched & _ & Hok); [vm_compute; reflexivity ..|].
  split; [exact Hfetched|].
  destruct (Hok "alice" "s3cret") as (Hres & _); [vm_compute; reflexivity ..|].
  exact Hres.
Defined.

(** C3, as the specification words it, fails: a record whose username is
    the empty string has no non-empty username, yet it is accepted. *)
Lemma resolver_accepts_empty_username : ~ RefusesEmptyFields.
Proof.
  intros Hclaim. destruct (Hclaim Sample.blankUser) as (e & He & _).
  - intros [(v & Hv & Hne) _]. vm_compute in Hv. by inversion Hv; subst.
  - vm_compute in He. discriminate.
Qed.

(** The same record through the resolver: the credentials with the empty
    username are returned and cached. *)
Example resolver_blank_username :
  let r := Sample.request "GET" "/v2/_catalog"
             (Sample.basic "Basic ZG9ja2VyO2JsYW5rO3JlZ2lzdHJ5LmV4YW1wbGUuY29tOnRvaw==") in
  let res := @authenticateAndGetCredentials Sample.externals Sample.clock r
               NewProxyServer in
  res.1 = inl (mkCredentials "" "p" "",
               mkRegistryConfig "docker" "blank" "registry.example.com")
  /\ Cache.Get (cache res.2) 1001 "tok" "blank" = Some (mkCredentials "" "p" "").
Proof. vm_compute. split; reflexivity. Qed.

End ResolverExamples.

(** ** Challenges and scopes *)

Section Scopes.
Import GoStrings Http Middleware Spec.

Lemma genSplit_free (c : ascii) (k : nat) (s : string) :
  (len s <= k)%nat ->
  Forall (fun x => occurs c x = false) (genSplit k s (String c EmptyString)).
Proof.
  revert s. induction k as [|k IH]; intros s Hlen.
  - destruct s; [|simpl in Hlen; lia]. by repeat constructor.
  - simpl. destruct (Index s (String c EmptyString)) as [m|] eqn:Hm.
    + destruct (Index_byte_Some _ _ _ Hm) as (a & r & -> & Ha & ->).
      rewrite slice_to_app, slice_from_app. constructor; [done|].
      apply IH. clear -Hlen. induction a as [|d a IHa]; simpl in *; lia.
    + repeat constructor. destruct (occurs c s) eqn:Hocc; [|done].
      destruct (Index_byte_occurs _ _ Hocc) as [m' Hm']. congruence.
Qed.

Lemma HasPrefix_occurs (c : ascii) (prefix s : string) :
  HasPrefix s prefix = true -> occurs c prefix = true -> occurs c s = true.
Proof.
  revert s. induction prefix as [|x ps IH]; intros s Hpre Hocc; [done|].
  destruct s as [|y ys]; [done|]. simpl in *.
  destruct (Ascii.eqb y x) eqn:Hyx; [|done].
  apply Ascii.eqb_eq in Hyx as ->.
  destruct (Ascii.eqb x c); [done|]. simpl in *. by apply IH.
Qed.

Lemma HasPrefix_free (c : ascii) (prefix s : string) :
  occurs c s = false -> occurs c prefix = true -> HasPrefix s prefix = false.
Proof.
  intros Hfree Hocc. destruct (HasPrefix s prefix) eqn:Hpre; [|done].
  rewrite (HasPrefix_occurs c prefix s Hpre Hocc) in Hfree. done.
Qed.

(** The endpoint handed to [getActionFromEndpoint] is the last part of a
    split at slashes, so it holds no slash: the method is never looked at. *)
Lemma getActionFromEndpoint_free (endpoint method : string) :
  occurs "/"%char endpoint = false ->
  getActionFromEndpoint endpoint method
  = if String.eqb endpoint "uploads" then "push" else "pull".
Proof.
  intros Hfree. unfold getActionFromEndpoint.
  rewrite !(HasPrefix_free "/" _ endpoint Hfree) by reflexivity.
  destruct (String.eqb endpoint "tags") eqn:Htags; simpl.
  - apply String.eqb_eq in Htags as ->. done.
  - by destruct (String.eqb endpoint "uploads").
Qed.

Lemma extractScope_ignores_method (r : Request) (method : string) :
  extractScope (setMethod r method) = extractScope r.
Proof.
  unfold extractScope, setMethod. cbn [Path Method].
  destruct (HasPrefix (Path r) "/v2/"); [|done].
  destruct (String.eqb (TrimPrefix (Path r) "/v2/") "_catalog"); [done|].
  destruct (Contains (TrimPrefix (Path r) "/v2/") "/"); [|done].
  set (parts := Split (TrimPrefix (Path r) "/v2/") "/").
  destruct (Nat.leb 2 (length parts)) eqn:Hlen; [|done].
  apply Nat.leb_le in Hlen.
  assert (occurs "/"%char (nth (length parts - 1) parts EmptyString) = false)
    as Hfree.
  { apply Forall_nth; [|lia]. apply genSplit_free. lia. }
  by rewrite !(getActionFromEndpoint_free _ _ Hfree).
Qed.

(** C2.  The scopes the code derives for the specification's examples: the
    catalog scope is as stated, while for a repository path the name keeps
    the next-to-last segment and the action is pull for GET, PUT and DELETE
    alike; in general the scope does not depend on the method. *)
Theorem extractScope_examples :
  extractScope (Sample.request "GET" "/v2/_catalog" ∅) = "registry:catalog:*"
  /\ extractScope (Sample.request "GET" "/v2/myrepo/manifests/latest" ∅)
     = "repository:myrepo/manifests:pull"
  /\ extractScope (Sample.request "PUT" "/v2/myrepo/manifests/latest" ∅)
     = "repository:myrepo/manifests:pull"
  /\ extractScope (Sample.request "DELETE" "/v2/myrepo/manifests/latest" ∅)
     = "repository:myrepo/manifests:pull"
  /\ extractScope (Sample.request "GET" "/v2/library/nginx/tags/list" ∅)
     = "repository:library/nginx/tags:pull"
  /\ forall r method, extractScope (setMethod r method) = extractScope r.
Proof.
  repeat split; try (vm_compute; reflexivity).
  apply extractScope_ignores_method.
Qed.

End Scopes.

Section Challenge.
Import GoStrings Http Middleware Spec.
Context `{Externals}.

Lemma append_empty_r (a : string) : a +:+ "" = a.
Proof.
  induction a as [|c a IH]; [done|].
  change (String c (a +:+ "") = String c a). by rewrite IH.
Qed.

(** Distinct literal header keys. *)
Ltac keys_differ := intros ?; discriminate.

Lemma canonical_keys :
  CanonicalMIMEHeaderKey "WWW-Authenticate" = "Www-Authenticate"
  /\ CanonicalMIMEHeaderKey "Docker-Distribution-API-Version"
     = "Docker-Distribution-Api-Version"
  /\ CanonicalMIMEHeaderKey "Content-Type" = "Content-Type"
  /\ CanonicalMIMEHeaderKey "Authorization" = "Authorization".
Proof. by vm_compute. Qed.

Lemma extractScope_single_segment (r : Request) (seg : string) :
  Path r = "/v2/" +:+ seg -> seg <> "_catalog" -> occurs "/"%char seg = false ->
  extractScope r = "".
Proof.
  intros Hpath Hcat Hfree. unfold extractScope, TrimPrefix.
  rewrite Hpath, HasPrefix_app, slice_from_len_app.
  apply String.eqb_neq in Hcat. rewrite Hcat.
  unfold Contains. by rewrite (Index_byte_None "/" seg Hfree).
Qed.

(** The response of [challengeAuth] on a fresh writer, by the scope. *)
Lemma challengeAuth_response (m : Middleware) (r : Request) :
  let w' := challengeAuth m newWriter r in
  wStatus w' = Some StatusUnauthorized
  /\ HeaderGet (wSent w') "WWW-Authenticate"
     = ("Bearer realm=" +:+ dq +:+ realm m +:+ dq +:+ ",service=" +:+ dq
          +:+ service m +:+ dq)
         +:+ (if String.eqb (extractScope r) "" then ""
              else ",scope=" +:+ dq +:+ extractScope r +:+ dq)
  /\ HeaderGet (wSent w') "Docker-Distribution-API-Version" = "registry/2.0"
  /\ wBody w' = [JsonLine (errorResp "UNAUTHORIZED" "authentication required")].
Proof.
  destruct canonical_keys as (Kw & Kd & Kc & _).
  unfold challengeAuth, writeErrorResponse, Write, WriteHeader, withHeader,
    HeaderSet, HeaderGet, newWriter.
  cbn [wHeader wStatus wSent wBody]. rewrite Kw, Kd, Kc.
  split; [reflexivity|]. split; [|split; [|reflexivity]].
  - do 2 rewrite lookup_insert_ne by keys_differ.
    rewrite lookup_insert_eq.
    destruct (String.eqb (extractScope r) ""); cbn [negb]; [|reflexivity].
    by rewrite append_empty_r.
  - rewrite lookup_insert_ne by keys_differ. by rewrite lookup_insert_eq.
Qed.

(** C10.  For a path [/v2/seg] with one non-empty segment other than
    [_catalog], the challenge is a 401 whose WWW-Authenticate header is
    exactly the realm and the service, with no scope parameter, and the
    API version header is set; a request of such a path without an
    Authorization header is answered with this challenge. *)
Theorem challenge_single_segment {S : Type} (m : Middleware) (next : Handler S)
    (r : Request) (st : S) (seg : string) :
  Path r = "/v2/" +:+ seg -> seg <> "" -> seg <> "_catalog" ->
  occurs "/"%char seg = false ->
  let w' := challengeAuth m newWriter r in
  wStatus w' = Some StatusUnauthorized
  /\ HeaderGet (wSent w') "WWW-Authenticate"
     = "Bearer realm=" +:+ dq +:+ realm m +:+ dq +:+ ",service=" +:+ dq
         +:+ service m +:+ dq
  /\ HeaderGet (wSent w') "Docker-Distribution-API-Version" = "registry/2.0"
  /\ (HeaderGet (Header_ r) "Authorization" = "" ->
      DockerRegistryAuth m next newWriter r st = (w', st)).
Proof.
  intros Hpath Hseg Hcat Hfree w'. subst w'.
  destruct (challengeAuth_response m r) as (Hst & Hwww & Hver & _).
  rewrite (extractScope_single_segment r seg Hpath Hcat Hfree) in Hwww.
  split; [exact Hst|]. split; [|split; [exact Hver|]].
  - rewrite Hwww. cbn [String.eqb]. apply append_empty_r.
  - intros Hauth. unfold DockerRegistryAuth. rewrite Hauth, Hpath.
    assert (String.eqb ("/v2/" +:+ seg) "/v2/" = false) as ->; [|reflexivity].
    apply String.eqb_neq. intros Heq.
    destruct seg; [exfalso; apply Hseg; reflexivity|].
    cbv [String.append] in Heq. discriminate.
Qed.

End Challenge.

Section ChallengeExamples.
Import GoStrings Http Middleware Spec.

Lemma challenge_single_segment_witness :
  let r := Sample.request "GET" "/v2/foo" ∅ in
  let w' := fst (@DockerRegistryAuth Sample.externals _ Sample.middleware
                   (@Registry.GetCatalog Sample.externals Sample.clock)
                   newWriter r Registry.NewProxyServer) in
  wStatus w' = Some StatusUnauthorized
  /\ HeaderGet (wSent w') "WWW-Authenticate"
     = "Bearer realm=" +:+ dq +:+ "https://auth.docker.io/token" +:+ dq
         +:+ ",service=" +:+ dq +:+ "registry.docker.io" +:+ dq.
Proof.
  intros r w'.
  destruct (@challenge_single_segment Sample.externals _ Sample.middleware
              (@Registry.GetCatalog Sample.externals Sample.clock)
              r Registry.NewProxyServer "foo")
    as (Hst & Hwww & _ & Hmw); [reflexivity | discriminate | discriminate
                                | reflexivity |].
  subst w'. rewrite (Hmw eq_refl). split; assumption.
Defined.

(** Every error the middleware itself writes has the registry API's error
    body. *)
Lemma middleware_errors_enveloped (w : ResponseWriter) (code message : string)
    (statusCode : Z) :
  wBody w = [] ->
  isErrorEnvelope (wBody (writeErrorResponse w code message statusCode)) = true.
Proof.
  intros Hbody. unfold writeErrorResponse, Write, WriteHeader, withHeader.
  cbn [wHeader wStatus wSent wBody]. rewrite Hbody.
  by destruct (wStatus w).
Qed.

End ChallengeExamples.

(** ** The handlers' own error responses *)

Section HandlerErrors.
Import Http Middleware Registry Spec.

(** C9.  Two errors written by a handler: the secret store has no secret
    at the locator's path (401), and the upstream registry cannot be
    reached (500).  Either body is one line of text, not the JSON error
    document. *)
Theorem handler_errors_plain_text :
  let respond (authorization : string) :=
    fst (@DockerRegistryAuth Sample.externals _ Sample.middleware
           (@GetCatalog Sample.externals Sample.clock) newWriter
           (Sample.request "GET" "/v2/_catalog" (Sample.basic authorization))
           NewProxyServer) in
  let w401 :=
    respond "Basic ZG9ja2VyO21pc3Npbmc7cmVnaXN0cnkuZXhhbXBsZS5jb206dG9r" in
  let w500 :=
    respond "Basic ZG9ja2VyO2RvY2tlci1odWI7ZG93bi5leGFtcGxlLmNvbTp0b2s=" in
  wStatus w401 = Some StatusUnauthorized
  /\ wBody w401
     = [TextLine "failed to retrieve credentials from Vault: secret not found in Vault: no secret at this path"]
  /\ isErrorEnvelope (wBody w401) = false
  /\ wStatus w500 = Some StatusInternalServerError
  /\ wBody w500
     = [TextLine "failed to proxy request: failed to forward request: dial tcp: connection refused"]
  /\ isErrorEnvelope (wBody w500) = false.
Proof. vm_compute. repeat split; reflexivity. Qed.

End HandlerErrors.

(** ** The forwarder *)

Section Forwarder.
Import GoStrings Http Middleware Registry Spec.
Context `{Externals}.

(** Into an empty header map, the copy loop rebuilds its source. *)
Lemma copyHeaders_empty (h : Header) : copyHeaders h ∅ = h.
Proof.
  unfold copyHeaders.
  apply (map_fold_weak_ind (fun acc (m : Header) => acc = m)); [done|].
  by intros name values m acc _ ->.
Qed.

(** Under its guard, the loop rebuilds the source without Authorization. *)
Lemma copyHeadersExceptAuthorization_empty (h : Header) :
  copyHeadersExceptAuthorization h ∅ = delete "Authorization" h.
Proof.
  unfold copyHeadersExceptAuthorization.
  apply (map_fold_weak_ind
           (fun acc (m : Header) => acc = delete "Authorization" m)).
  - by rewrite delete_empty.
  - intros name values m acc _ ->.
    destruct (String.eqb name "Authorization") eqn:Hname.
    + apply String.eqb_eq in Hname as ->. by rewrite delete_insert_eq.
    + apply String.eqb_neq in Hname. by rewrite delete_insert_ne.
Qed.

Lemma SetBasicAuth_lookup (h : Header) (username password name : string) :
  SetBasicAuth (delete "Authorization" h) username password !! name
  = if String.eqb name "Authorization"
    then Some ["Basic " +:+ Encoding.EncodeToString (username +:+ ":" +:+ password)]
    else h !! name.
Proof.
  unfold SetBasicAuth, HeaderSet.
  replace (CanonicalMIMEHeaderKey "Authorization") with "Authorization"
    by (by vm_compute).
  destruct (String.eqb name "Authorization") eqn:Hname.
  - apply String.eqb_eq in Hname as ->. by rewrite lookup_insert_eq.
  - apply String.eqb_neq in Hname.
    rewrite lookup_insert_ne, lookup_delete_ne by congruence. done.
Qed.

(** What [send] does to the server: it records the request, nothing else. *)
Lemma send_server (w : ResponseWriter) (proxyReq : ProxyRequest) (p : ProxyServer) :
  (send w proxyReq p).1.2
  = mkProxyServer (vaultToken p) (cache p) (fetched p) (proxyReq :: forwarded p).
Proof.
  unfold send. destruct (clientDo proxyReq) as [d|resp]; [done|].
  by destruct (relay w resp).
Qed.

Lemma proxyBearerRequest_server (w : ResponseWriter) (r : Request)
    (bearerAuth : Auth.BearerAuth) (targetPath : string) (p : ProxyServer) :
  let url := targetURL (Auth.baRegistryURL bearerAuth) targetPath (RawQuery r) in
  (proxyBearerRequest w r bearerAuth targetPath p).1.2
  = match newRequestError (Method r) url with
    | Some _ => p
    | None =>
        mkProxyServer (vaultToken p) (cache p) (fetched p)
          (mkProxyRequest (Method r) url (Header_ r) (Body r) :: forwarded p)
    end.
Proof.
  intros url. unfold proxyBearerRequest. fold url.
  destruct (newRequestError (Method r) url); [done|].
  by rewrite send_server, copyHeaders_empty.
Qed.

Lemma proxyRequest_server (w : ResponseWriter) (r : Request)
    (credentials : Auth.Credentials) (registryConfig : Auth.RegistryConfig)
    (targetPath : string) (p : ProxyServer) :
  let url := targetURL (Auth.RegistryURL registryConfig) targetPath (RawQuery r) in
  (proxyRequest w r credentials registryConfig targetPath p).1.2
  = match newRequestError (Method r) url with
    | Some _ => p
    | None =>
        mkProxyServer (vaultToken p) (cache p) (fetched p)
          (mkProxyRequest (Method r) url
             (SetBasicAuth (delete "Authorization" (Header_ r))
                           (Auth.Username credentials) (Auth.Password credentials))
             (Body r) :: forwarded p)
    end.
Proof.
  intros url. unfold proxyRequest. fold url.
  destruct (newRequestError (Method r) url); [done|].
  by rewrite send_server, copyHeadersExceptAuthorization_empty.
Qed.

Lemma handler_serve (clk : Clock) (route : Route) (w : ResponseWriter)
    (r : Request) (p : ProxyServer) :
  handler clk route w r p = serve clk (routeTarget route r) w r p.
Proof. by destruct route. Qed.

(** With a bearer context the handler goes to the pass-through forwarder
    and nowhere else. *)
Lemma serve_bearer_server (clk : Clock) (targetPath : string)
    (w : ResponseWriter) (r : Request) (bearerAuth : Auth.BearerAuth)
    (p : ProxyServer) :
  ctxBearer r = Some bearerAuth ->
  (serve clk targetPath w r p).2
  = (proxyBearerRequest w r bearerAuth targetPath p).1.2.
Proof.
  intros Hctx. unfold serve. rewrite Hctx.
  by destruct (proxyBearerRequest w r bearerAuth targetPath p) as [[w' p'] [e|]].
Qed.

(** Without one, it forwards with the credentials the resolver returned. *)
Lemma serve_basic_server (clk : Clock) (targetPath : string)
    (w : ResponseWriter) (r : Request) (p p1 : ProxyServer)
    (credentials : Auth.Credentials) (registryConfig : Auth.RegistryConfig) :
  ctxBearer r = None ->
  authenticateAndGetCredentials clk r p = (inl (credentials, registryConfig), p1) ->
  (serve clk targetPath w r p).2
  = (proxyRequest w r credentials registryConfig targetPath p1).1.2.
Proof.
  intros Hctx Hauth. unfold serve. rewrite Hctx, Hauth.
  by destruct (proxyRequest w r credentials registryConfig targetPath p1)
    as [[w' p'] [e|]].
Qed.

(** The resolver hands nothing to the HTTP client. *)
Lemma authenticate_forwarded (clk : Clock) (r : Request) (p : ProxyServer) :
  forwarded (authenticateAndGetCredentials clk r p).2 = forwarded p.
Proof.
  unfold authenticateAndGetCredentials.
  destruct (BasicAuth r) as [[username password]|]; [|reflexivity].
  destruct (Auth.ParseUsername username) as [cfg|e]; [|reflexivity].
  cbn [cache vaultToken fetched forwarded].
  destruct (Cache.Get (cache p) (atGet clk) password (Auth.VaultPath cfg));
    [reflexivity|].
  destruct (Vault.GetCredentials (kvGet password (Auth.VaultPath cfg)));
    reflexivity.
Qed.

(** C8.  A request forwarded by a handler in injection mode carries every
    inbound header other than Authorization unchanged, and as Authorization
    the Basic header of the resolved username and password; a request
    forwarded in pass-through mode carries the inbound headers unchanged,
    Authorization included. *)
Theorem forwarded_headers (clk : Clock) (targetPath : string)
    (w : ResponseWriter) (r : Request) (p : ProxyServer) :
  let p' := (serve clk targetPath w r p).2 in
  (forall credentials registryConfig p1,
     ctxBearer r = None ->
     authenticateAndGetCredentials clk r p
     = (inl (credentials, registryConfig), p1) ->
     newRequestError (Method r)
       (targetURL (Auth.RegistryURL registryConfig) targetPath (RawQuery r)) = None ->
     exists out,
       forwarded p' = out :: forwarded p
       /\ (forall name, name <> "Authorization" ->
                        pHeader out !! name = Header_ r !! name)
       /\ pHeader out !! "Authorization"
          = Some ["Basic " +:+ Encoding.EncodeToString
                    (Auth.Username credentials +:+ ":" +:+ Auth.Password credentials)])
  /\ (forall bearerAuth,
        ctxBearer r = Some bearerAuth ->
        newRequestError (Method r)
          (targetURL (Auth.baRegistryURL bearerAuth) targetPath (RawQuery r)) = None ->
        exists out,
          forwarded p' = out :: forwarded p /\ pHeader out = Header_ r).
Proof.
  intros p'. subst p'. split.
  - intros credentials registryConfig p1 Hctx Hauth Hnew.
    rewrite (serve_basic_server _ _ _ _ _ _ _ _ Hctx Hauth).
    rewrite proxyRequest_server, Hnew. eexists. split; [|split].
    + cbn [forwarded]. apply (f_equal2 cons); [reflexivity|].
      rewrite <- (authenticate_forwarded clk r p). by rewrite Hauth.
    + intros name Hname. cbn [pHeader]. rewrite SetBasicAuth_lookup.
      apply String.eqb_neq in Hname. by rewrite Hname.
    + cbn [pHeader]. by rewrite SetBasicAuth_lookup.
  - intros bearerAuth Hctx Hnew.
    rewrite (serve_bearer_server _ _ _ _ _ _ Hctx).
    rewrite proxyBearerRequest_server, Hnew. by eexists.
Qed.

End Forwarder.

Section ForwarderExamples.
Import Http Auth Registry.

Lemma forwarded_headers_witness :
  let r := Sample.request "GET" "/v2/_catalog"
             (<["Accept" := ["*/*"]]>
                (Sample.basic "Basic ZG9ja2VyO2RvY2tlci1odWI7cmVnaXN0cnkuZXhhbXBsZS5jb206dG9r")) in
  exists out,
    forwarded (@serve Sample.externals Sample.clock "/_catalog" newWriter r
                 NewProxyServer).2 = [out]
    /\ pHeader out !! "Accept" = Some ["*/*"]
    /\ pHeader out !! "Authorization" = Some ["Basic YWxpY2U6czNjcmV0"].
Proof.
  intros r.
  destruct (@forwarded_headers Sample.externals Sample.clock "/_catalog"
              newWriter r NewProxyServer) as [Hbasic _].
  destruct (Hbasic (mkCredentials "alice" "s3cret" "")
                   (mkRegistryConfig "docker" "docker-hub" "registry.example.com")
                   (@authenticateAndGetCredentials Sample.externals Sample.clock r
                      NewProxyServer).2)
    as (out & Hout & Hother & Hauth);
    [reflexivity | vm_compute; reflexivity | reflexivity |].
  exists out. split; [exact Hout|]. split.
  - rewrite Hother by (intros ?; discriminate). vm_compute. reflexivity.
  - rewrite Hauth. vm_compute. reflexivity.
Defined.

End ForwarderExamples.

(** ** Bearer pass-through *)

Section Bearer.
Import GoStrings Http Middleware Registry Spec.
Context `{Externals}.

(** The host chosen by the middleware, by precedence. *)
Lemma bearer_host_precedence (r : Request) :
  let override := HeaderGet (Header_ r) "X-Registry-URL" in
  let cookie := cookieValue (Header_ r) "registry-url" in
  let host := if String.eqb (extractRegistryURL r) "" then "registry-1.docker.io"
              else extractRegistryURL r in
  (override <> "" -> host = override)
  /\ (override = "" -> forall v, cookie = Some v -> v <> "" -> host = v)
  /\ (override = "" -> cookie = None \/ cookie = Some "" ->
      host = "registry-1.docker.io").
Proof.
  intros override cookie host. subst host. unfold extractRegistryURL.
  fold override. fold cookie. clearbody override cookie. repeat split.
  - intros Hov. apply String.eqb_neq in Hov. rewrite Hov. cbn [negb].
    by rewrite Hov.
  - intros -> v -> Hv. cbn [String.eqb negb].
    apply String.eqb_neq in Hv. by rewrite Hv.
  - intros -> [->| ->]; reflexivity.
Qed.

(** C4.  A request with a non-empty bearer token, on any authenticated
    route: the upstream host is the X-Registry-URL header if it is set,
    else the registry-url cookie if it is set, else registry-1.docker.io;
    the request forwarded carries the inbound headers, so the bearer
    Authorization header, unchanged; and the server's Vault token, cache
    and history of secret-store reads are as before. *)
Theorem bearer_passthrough (m : Middleware) (clk : Clock) (route : Route)
    (w : ResponseWriter) (r : Request) (p : ProxyServer) (tok : string) :
  Path r <> "/v2/" ->
  HeaderGet (Header_ r) "Authorization" = "Bearer " +:+ tok -> tok <> "" ->
  let override := HeaderGet (Header_ r) "X-Registry-URL" in
  let cookie := cookieValue (Header_ r) "registry-url" in
  exists host,
    (override <> "" -> host = override)
    /\ (override = "" -> forall v, cookie = Some v -> v <> "" -> host = v)
    /\ (override = "" -> cookie = None \/ cookie = Some "" ->
        host = "registry-1.docker.io")
    /\ let out := mkProxyRequest (Method r)
                    (targetURL host (routeTarget route r) (RawQuery r))
                    (Header_ r) (Body r) in
       let p' := (DockerRegistryAuth m (handler clk route) w r p).2 in
       (newRequestError (Method r) (pURL out) = None ->
        forwarded p' = out :: forwarded p)
       /\ HeaderGet (pHeader out) "Authorization" = "Bearer " +:+ tok
       /\ fetched p' = fetched p /\ cache p' = cache p
       /\ vaultToken p' = vaultToken p.
Proof.
  intros Hpath Hauth Htok override cookie.
  destruct (bearer_host_precedence r) as (Hfirst & Hsecond & Hthird).
  set (host := if String.eqb (extractRegistryURL r) "" then "registry-1.docker.io"
               else extractRegistryURL r) in *.
  exists host. split; [exact Hfirst|]. split; [exact Hsecond|].
  split; [exact Hthird|]. intros out p'.
  assert (p' = match newRequestError (Method r) (pURL out) with
               | Some _ => p
               | None => mkProxyServer (vaultToken p) (cache p) (fetched p)
                                       (out :: forwarded p)
               end) as ->.
  { subst p'. unfold DockerRegistryAuth.
    apply String.eqb_neq in Hpath. rewrite Hpath, Hauth.
    change (String.eqb ("Bearer " +:+ tok) "") with false. cbv iota.
    rewrite HasPrefix_app. unfold handleBearerAuth, TrimPrefix.
    rewrite Hauth, HasPrefix_app, slice_from_len_app.
    apply String.eqb_neq in Htok. rewrite Htok. fold host.
    rewrite handler_serve.
    rewrite (serve_bearer_server _ _ _ _ (Auth.mkBearerAuth tok host)) by reflexivity.
    by rewrite proxyBearerRequest_server. }
  split; [by intros ->|]. split; [exact Hauth|].
  by destruct (newRequestError (Method r) (pURL out)).
Qed.

End Bearer.

Section BearerExamples.
Import Http Middleware Registry.

Lemma bearer_passthrough_witness :
  let r := Sample.request "GET" "/v2/library/nginx/tags/list"
             (<["X-Registry-Url" := ["quay.io"]]>
                (<["Cookie" := ["registry-url=ghcr.io"]]>
                   (Sample.basic "Bearer abc.def"))) in
  let p' := (@DockerRegistryAuth Sample.externals _ Sample.middleware
               (@handler Sample.externals Sample.clock RouteTags)
               newWriter r NewProxyServer).2 in
  forwarded p'
  = [mkProxyRequest "GET" "https://quay.io/v2/library/nginx/tags/list"
                    (Header_ r) ""]
  /\ fetched p' = [].
Proof.
  intros r p'.
  destruct (@bearer_passthrough Sample.externals Sample.middleware Sample.clock
              RouteTags newWriter r NewProxyServer "abc.def")
    as (host & Hfirst & _ & _ & Hout & _ & Hfetched & _);
    [intros ?; discriminate | vm_compute; reflexivity | intros ?; discriminate |].
  rewrite Hfirst in Hout by (vm_compute; intros ?; discriminate).
  split; [|exact Hfetched].
  subst p'. rewrite Hout by reflexivity. vm_compute. reflexivity.
Defined.

End BearerExamples.

(* ===================================================================== *)
(** * Further properties of the code *)
(* ===================================================================== *)

(** ** The cache: deletion, custom TTLs, overwriting, statistics *)

Section CacheMore.
Import GoCache.
Context {V : Type}.
Implicit Types (c : Cache V) (k : string) (x : V).

Lemma Get_Delete c now k : Get (Delete c k) now k = None.
Proof. unfold Get, Delete. cbn [items]. by rewrite lookup_delete_eq. Qed.

Lemma Get_Delete_other c now k k' :
  k <> k' -> Get (Delete c k) now k' = Get c now k'.
Proof. intros Hne. unfold Get, Delete. cbn [items]. by rewrite lookup_delete_ne. Qed.

Lemma Get_Flush c now k : Get (Flush c) now k = None.
Proof. unfold Get, Flush. cbn [items]. by rewrite lookup_empty. Qed.

(** A read of the key just written with the duration [d]. *)
Lemma Get_Set_duration c now now' k x d :
  Get (Set_ c now k x d) now' k
  = let d' := if d =? DefaultExpiration then defaultExpiration c else d in
    if (0 <? d') && (0 <? now + d') && (now + d' <? now') then None else Some x.
Proof.
  unfold Get. rewrite items_Set. cbv zeta.
  set (d' := if d =? DefaultExpiration then defaultExpiration c else d).
  unfold expired. cbn [Expiration Object].
  destruct (0 <? d'); [|reflexivity]. reflexivity.
Qed.

Lemma Set_Set c now1 now2 k x1 x2 d1 d2 :
  Set_ (Set_ c now1 k x1 d1) now2 k x2 d2 = Set_ c now2 k x2 d2.
Proof. unfold Set_. cbn [items defaultExpiration]. by rewrite insert_insert_eq. Qed.

Lemma ItemCount_Set c now k x d :
  ItemCount (Set_ c now k x d) = S (ItemCount (Delete c k)).
Proof.
  unfold ItemCount, Set_, Delete. cbn [items].
  rewrite <- insert_delete_eq. apply map_size_insert_None, lookup_delete_eq.
Qed.

(** After a sweep past its expiration an entry is gone from the table, and
    the table has shrunk. *)
Lemma DeleteExpired_removes c sweep k (it : Item V) :
  items c !! k = Some it -> expired it sweep = true ->
  items (DeleteExpired c sweep) !! k = None
  /\ (ItemCount (DeleteExpired c sweep) < ItemCount c)%nat.
Proof.
  intros Hk Hexp. unfold DeleteExpired, ItemCount. cbn [items]. split.
  - apply map_lookup_filter_None. right. intros it' Hk'. cbn [snd].
    rewrite Hk in Hk'. inversion Hk'; subst. congruence.
  - apply map_subset_size. split.
    + apply map_filter_subseteq.
    + intros Hsub. rewrite map_subseteq_spec in Hsub.
      specialize (Hsub k it Hk).
      apply map_lookup_filter_Some in Hsub as [_ Hkeep]. cbn [snd] in Hkeep.
      congruence.
Qed.

End CacheMore.

Section CredentialCacheMore.
Import Auth Cache.

(** X1.  [Delete] makes the pair's read miss and leaves the reads of every
    pair with another key as they were; after [Clear] every read misses;
    neither changes the default TTL. *)
Theorem cache_delete_clear c (now : Z) (t p : string) :
  Get (Delete c t p) now t p = None
  /\ (forall t' p', generateCacheKey t p <> generateCacheKey t' p' ->
                    Get (Delete c t p) now t' p' = Get c now t' p')
  /\ (forall t' p', Get (Clear c) now t' p' = None)
  /\ GoCache.defaultExpiration (Delete c t p) = GoCache.defaultExpiration c
  /\ GoCache.defaultExpiration (Clear c) = GoCache.defaultExpiration c.
Proof.
  unfold Get, Delete, Clear. split; [apply Get_Delete|].
  split; [intros t' p' Hne; by apply Get_Delete_other|].
  split; [intros t' p'; apply Get_Flush|]. split; reflexivity.
Qed.

(** X2.  [SetWithTTL] with a clock after the epoch: a positive TTL is the
    entry's own lifetime, whatever the cache's default; a negative TTL
    gives an entry that never expires; and a TTL of zero is not "expire at
    once" but the cache's default TTL, the call being the same as [Set]. *)
Theorem SetWithTTL_lifetimes c (now : Z) (t p : string) (creds : Credentials)
    (ttl : Z) :
  0 <= now ->
  (0 < ttl ->
   forall now', Get (SetWithTTL c now t p creds ttl) now' t p
                = if now + ttl <? now' then None else Some creds)
  /\ (ttl < 0 ->
      forall now', Get (SetWithTTL c now t p creds ttl) now' t p = Some creds)
  /\ (ttl = 0 -> SetWithTTL c now t p creds ttl = Set_ c now t p creds).
Proof.
  intros Hnow. unfold Get, SetWithTTL, Set_. repeat split.
  - intros Httl now'. rewrite Get_Set_duration. cbv zeta.
    unfold GoCache.DefaultExpiration.
    assert ((ttl =? 0) = false) as -> by lia.
    assert ((0 <? ttl) = true) as -> by lia.
    assert ((0 <? now + ttl) = true) as -> by lia. reflexivity.
  - intros Httl now'. rewrite Get_Set_duration. cbv zeta.
    unfold GoCache.DefaultExpiration.
    assert ((ttl =? 0) = false) as -> by lia.
    assert ((0 <? ttl) = false) as -> by lia. reflexivity.
  - by intros ->.
Qed.

Lemma SetWithTTL_lifetimes_witness :
  let creds := mkCredentials "alice" "s3cret" "" in
  let c := SetWithTTL NewCredentialCache 1000 "tok" "docker-hub" creds 50 in
  Get c 1050 "tok" "docker-hub" = Some creds
  /\ Get c 1051 "tok" "docker-hub" = None.
Proof.
  intros creds c.
  destruct (SetWithTTL_lifetimes NewCredentialCache 1000 "tok" "docker-hub"
              creds 50) as (Hpos & _); [lia|].
  subst c. rewrite !Hpos by lia. split; reflexivity.
Defined.

(** X3.  A cache created with a default TTL of zero or less keeps what
    [Set] stores for ever: no read of the pair misses, however late. *)
Theorem nonpositive_default_never_expires (ttl cleanupInterval : Z)
    (now now' : Z) (t p : string) (creds : Credentials) :
  ttl <= 0 ->
  Get (Set_ (NewCredentialCacheWithTTL ttl cleanupInterval) now t p creds)
      now' t p = Some creds.
Proof.
  intros Httl. unfold Get, Set_. apply Get_Set_fresh. right.
  unfold NewCredentialCacheWithTTL, GoCache.New. cbn [GoCache.defaultExpiration].
  destruct (ttl =? 0) eqn:Hz; lia.
Qed.

Lemma nonpositive_default_never_expires_witness :
  Get (Set_ (NewCredentialCacheWithTTL 0 DefaultCleanupInterval) 1000
            "tok" "docker-hub" (mkCredentials "alice" "s3cret" ""))
      (1000 + 1000 * DefaultCacheTTL) "tok" "docker-hub"
  = Some (mkCredentials "alice" "s3cret" "").
Proof.
  apply (nonpositive_default_never_expires 0). lia.
Defined.

(** X4.  The last writer wins: a second [Set] under the same pair leaves
    the cache exactly as if the first had never happened, the expiration
    counted from the second store. *)
Theorem Set_overwrites c (now1 now2 : Z) (t p : string) (c1 c2 : Credentials) :
  Set_ (Set_ c now1 t p c1) now2 t p c2 = Set_ c now2 t p c2
  /\ Get (Set_ (Set_ c now1 t p c1) now2 t p c2) now2 t p = Some c2.
Proof.
  unfold Set_. rewrite Set_Set. split; [reflexivity|].
  unfold Get. apply Get_Set_fresh.
  destruct (Z_le_gt_dec (GoCache.defaultExpiration c) 0); [by right | left; lia].
Qed.

(** X5.  [Stats] counts the entries of the table, expired or not: after a
    store the count is one more than that of the other entries at any
    time; past the TTL the pair's read misses while it is still counted;
    a sweep past the TTL removes it and lowers the count.  The three other
    statistics are always zero. *)
Theorem Stats_counts_unswept c (now : Z) (t p : string) (creds : Credentials) :
  0 < GoCache.defaultExpiration c -> 0 <= now ->
  let c' := Set_ c now t p creds in
  Stats c' = (S (GoCache.ItemCount (Delete c t p)), 0, 0, 0)
  /\ forall late, now + GoCache.defaultExpiration c < late ->
       Get c' late t p = None
       /\ (1 <= (Stats c').1.1.1)%nat
       /\ ((Stats (GoCache.DeleteExpired c' late)).1.1.1 < (Stats c').1.1.1)%nat.
Proof.
  intros Hd Hnow c'. subst c'. unfold Stats, Get, Set_, Delete. cbn [fst].
  generalize (generateCacheKey t p). intros k.
  rewrite ItemCount_Set. split; [reflexivity|]. intros late Hlate.
  split; [by apply Get_Set_stale|]. split; [lia|].
  rewrite <- (ItemCount_Set c now k creds GoCache.DefaultExpiration).
  eapply DeleteExpired_removes; [apply items_Set|].
  apply expired_true_iff. cbn [GoCache.Expiration].
  unfold GoCache.DefaultExpiration. cbn [Z.eqb].
  assert ((0 <? GoCache.defaultExpiration c) = true) as -> by lia. lia.
Qed.

Lemma Stats_counts_unswept_witness :
  let c' := Set_ NewCredentialCache 1000 "tok" "docker-hub"
              (mkCredentials "alice" "s3cret" "") in
  Stats c' = (1%nat, 0, 0, 0)
  /\ Stats (GoCache.DeleteExpired c' (1001 + DefaultCacheTTL)) = (0%nat, 0, 0, 0).
Proof.
  intros c'.
  destruct (Stats_counts_unswept NewCredentialCache 1000 "tok" "docker-hub"
              (mkCredentials "alice" "s3cret" "")) as (Hcount & Hlate);
    [vm_compute; reflexivity | lia |].
  destruct (Hlate (1001 + DefaultCacheTTL)) as (_ & _ & Hless);
    [vm_compute; reflexivity|].
  fold c' in Hcount, Hless. rewrite Hcount in Hless |- *.
  split; [reflexivity|]. cbn [fst] in Hless.
  unfold Stats in *. cbn [fst] in Hless.
  assert (GoCache.ItemCount (Delete NewCredentialCache "tok" "docker-hub") = 0%nat)
    as Hzero by (vm_compute; reflexivity).
  rewrite Hzero in Hless.
  destruct (GoCache.ItemCount (GoCache.DeleteExpired c' (1001 + DefaultCacheTTL)));
    [reflexivity | lia].
Defined.

End CredentialCacheMore.

(** ** The cache wrapper *)

Section Wrapper.
Import Auth Cache.

(** X6.  [CacheWrapper.GetCredentials]: on a hit the cached credentials are
    returned and the getter is not called; on a miss the getter is called
    once; its error is returned and nothing is cached; its credentials are
    returned and cached, so that a later call within the TTL is a hit that
    returns them without calling the getter again. *)
Theorem CacheWrapper_caches (getter : string -> string -> Credentials + string)
    (atGet atSet : Z) (w : CacheWrapper) (t p : string) :
  let res := GetCredentials getter atGet atSet w t p in
  (forall creds, Get (wrapped w) atGet t p = Some creds -> res = (inl creds, w))
  /\ (Get (wrapped w) atGet t p = None ->
      asked res.2 = (t, p) :: asked w
      /\ (forall err, getter t p = inr err ->
                      res.1 = inr err /\ wrapped res.2 = wrapped w)
      /\ (forall creds, getter t p = inl creds ->
            res.1 = inl creds
            /\ forall atGet' atSet',
                 atGet' <= atSet + GoCache.defaultExpiration (wrapped w)
                 \/ GoCache.defaultExpiration (wrapped w) <= 0 ->
                 GetCredentials getter atGet' atSet' res.2 t p
                 = (inl creds, res.2))).
Proof.
  intros res. subst res. unfold GetCredentials. split.
  - by intros creds ->.
  - intros ->. cbn [wrapped asked]. split.
    + by destruct (getter t p).
    + split.
      * by intros err ->.
      * intros creds ->. cbn [fst snd wrapped asked]. split; [reflexivity|].
        intros atGet' atSet' Hfresh.
        assert (Get (Set_ (wrapped w) atSet t p creds) atGet' t p = Some creds)
          as ->; [|reflexivity].
        unfold Get, Set_. by apply Get_Set_fresh.
Qed.

Lemma CacheWrapper_caches_witness :
  let getter := fun (t p : string) =>
                  @inl Credentials string (mkCredentials "alice" "s3cret" "") in
  let first := GetCredentials getter 1000 1001 NewCacheWrapper "tok" "docker-hub" in
  let second := GetCredentials getter 2000 2001 first.2 "tok" "docker-hub" in
  second.1 = inl (mkCredentials "alice" "s3cret" "")
  /\ asked second.2 = [("tok", "docker-hub")].
Proof.
  intros getter first second.
  destruct (CacheWrapper_caches getter 1000 1001 NewCacheWrapper "tok" "docker-hub")
    as (_ & Hmiss).
  destruct Hmiss as (Hasked & _ & Hok); [vm_compute; reflexivity|].
  destruct (Hok (mkCredentials "alice" "s3cret" "") eq_refl) as (_ & Hagain).
  subst second first. rewrite (Hagain 2000 2001).
  - split; [reflexivity | exact Hasked].
  - left. vm_compute. discriminate.
Defined.

End Wrapper.

(** ** The resolver: hits, repeated requests, failures *)

Section ResolverMore.
Import Http Auth Registry Spec.
Context `{Externals}.

(** On a hit the resolver only overwrites the shared client's token. *)
Lemma authenticate_hit (clk : Clock) (r : Request) (p : ProxyServer)
    (username password : string) (cfg : RegistryConfig) (creds : Credentials) :
  BasicAuth r = Some (username, password) ->
  ParseUsername username = inl cfg ->
  Cache.Get (cache p) (atGet clk) password (VaultPath cfg) = Some creds ->
  authenticateAndGetCredentials clk r p
  = (inl (creds, cfg),
     mkProxyServer password (cache p) (fetched p) (forwarded p)).
Proof.
  intros Hbasic Hparse Hhit. unfold authenticateAndGetCredentials.
  rewrite Hbasic, Hparse. cbn [cache vaultToken fetched forwarded].
  by rewrite Hhit.
Qed.

Lemma authenticate_miss (clk : Clock) (r : Request) (p : ProxyServer)
    (username password : string) (cfg : RegistryConfig) :
  BasicAuth r = Some (username, password) ->
  ParseUsername username = inl cfg ->
  Cache.Get (cache p) (atGet clk) password (VaultPath cfg) = None ->
  authenticateAndGetCredentials clk r p
  = match Vault.GetCredentials (kvGet password (VaultPath cfg)) with
    | inr e =>
        (inr (ErrVaultFetch e),
         mkProxyServer password (cache p)
           ((password, VaultPath cfg) :: fetched p) (forwarded p))
    | inl creds =>
        (inl (creds, cfg),
         mkProxyServer password
           (Cache.Set_ (cache p) (atSet clk) password (VaultPath cfg) creds)
           ((password, VaultPath cfg) :: fetched p) (forwarded p))
    end.
Proof.
  intros Hbasic Hparse Hmiss. unfold authenticateAndGetCredentials.
  rewrite Hbasic, Hparse. cbn [cache vaultToken fetched forwarded].
  rewrite Hmiss. by destruct (Vault.GetCredentials _).
Qed.

(** X7.  A cache hit: the cached credentials are returned, the secret
    store is not read and the cache is not written; the one effect is that
    the shared Vault client's token becomes the request's password. *)
Theorem resolver_on_hit (clk : Clock) (r : Request) (p : ProxyServer)
    (username password : string) (cfg : RegistryConfig) (creds : Credentials) :
  BasicAuth r = Some (username, password) ->
  ParseUsername username = inl cfg ->
  Cache.Get (cache p) (atGet clk) password (VaultPath cfg) = Some creds ->
  let res := authenticateAndGetCredentials clk r p in
  res.1 = inl (creds, cfg)
  /\ fetched res.2 = fetched p /\ cache res.2 = cache p
  /\ vaultToken res.2 = password.
Proof.
  intros Hbasic Hparse Hhit res. subst res.
  by rewrite (authenticate_hit _ _ _ _ _ _ _ Hbasic Hparse Hhit).
Qed.

(** X8.  Two identical requests on a cold cache: when the first resolution
    succeeds, a second one whose lookup is no later than the default TTL
    after the first one's store returns the same credentials, and the
    secret store has been read exactly once over the two. *)
Theorem resolver_second_request (clk clk' : Clock) (r : Request)
    (p : ProxyServer) (username password : string) (cfg : RegistryConfig)
    (creds : Credentials) :
  BasicAuth r = Some (username, password) ->
  ParseUsername username = inl cfg ->
  Cache.Get (cache p) (atGet clk) password (VaultPath cfg) = None ->
  Vault.GetCredentials (kvGet password (VaultPath cfg)) = inl creds ->
  atGet clk' <= atSet clk + GoCache.defaultExpiration (cache p)
  \/ GoCache.defaultExpiration (cache p) <= 0 ->
  let first := authenticateAndGetCredentials clk r p in
  let second := authenticateAndGetCredentials clk' r first.2 in
  first.1 = inl (creds, cfg) /\ second.1 = inl (creds, cfg)
  /\ fetched second.2 = (password, VaultPath cfg) :: fetched p
  /\ second.2 = first.2.
Proof.
  intros Hbasic Hparse Hmiss Hfetch Hfresh first second. subst second first.
  rewrite (authenticate_miss _ _ _ _ _ _ Hbasic Hparse Hmiss), Hfetch.
  cbn [fst snd].
  erewrite authenticate_hit; [| exact Hbasic | exact Hparse |].
  - cbn [fst snd fetched cache forwarded]. repeat split; reflexivity.
  - cbn [cache]. unfold Cache.Get, Cache.Set_. by apply Get_Set_fresh.
Qed.

(** X9.  Failures are not cached.  When the secret store fails, whatever
    the failure, the resolver fails with that error and leaves the cache
    as it was; a retry reads the store again. *)
Theorem resolver_failure_not_cached (clk clk' : Clock) (r : Request)
    (p : ProxyServer) (username password : string) (cfg : RegistryConfig)
    (e : Vault.Error) :
  BasicAuth r = Some (username, password) ->
  ParseUsername username = inl cfg ->
  Cache.Get (cache p) (atGet clk) password (VaultPath cfg) = None ->
  Cache.Get (cache p) (atGet clk') password (VaultPath cfg) = None ->
  Vault.GetCredentials (kvGet password (VaultPath cfg)) = inr e ->
  let first := authenticateAndGetCredentials clk r p in
  let second := authenticateAndGetCredentials clk' r first.2 in
  first.1 = inr (ErrVaultFetch e) /\ cache first.2 = cache p
  /\ second.1 = inr (ErrVaultFetch e)
  /\ fetched second.2
     = (password, VaultPath cfg) :: (password, VaultPath cfg) :: fetched p.
Proof.
  intros Hbasic Hparse Hmiss Hmiss' Hfetch first second. subst second first.
  rewrite (authenticate_miss _ _ _ _ _ _ Hbasic Hparse Hmiss), Hfetch.
  cbn [fst snd cache].
  rewrite (authenticate_miss clk' _ _ _ _ _ Hbasic Hparse) by exact Hmiss'.
  rewrite Hfetch. cbn [fst snd fetched]. repeat split; reflexivity.
Qed.

(** Without Basic credentials, or with a username that is no valid
    locator, the resolver fails before it touches anything. *)
Lemma resolver_rejects_untouched (clk : Clock) (r : Request) (p : ProxyServer) :
  (BasicAuth r = None ->
   authenticateAndGetCredentials clk r p = (inr ErrBasicAuthRequired, p))
  /\ (forall username password e,
        BasicAuth r = Some (username, password) ->
        ParseUsername username = inr e ->
        authenticateAndGetCredentials clk r p = (inr (ErrInvalidUsername e), p)).
Proof.
  unfold authenticateAndGetCredentials. split.
  - by intros ->.
  - by intros username password e -> ->.
Qed.

End ResolverMore.

Section ResolverMoreExamples.
Import Http Auth Registry.

Lemma resolver_on_hit_witness :
  let r := Sample.request "GET" "/v2/_catalog"
             (Sample.basic "Basic ZG9ja2VyO2RvY2tlci1odWI7cmVnaXN0cnkuZXhhbXBsZS5jb206dG9r") in
  let creds := mkCredentials "bob" "hunter2" "" in
  let p := mkProxyServer "old"
             (Cache.Set_ Cache.NewCredentialCache 900 "tok" "docker-hub" creds)
             [] [] in
  let res := @authenticateAndGetCredentials Sample.externals Sample.clock r p in
  fetched res.2 = [] /\ vaultToken res.2 = "tok".
Proof.
  intros r creds p res.
  destruct (@resolver_on_hit Sample.externals Sample.clock r p
              "docker;docker-hub;registry.example.com" "tok"
              (mkRegistryConfig "docker" "docker-hub" "registry.example.com") creds)
    as (_ & Hfetched & _ & Htoken); [vm_compute; reflexivity ..|].
  split; [exact Hfetched | exact Htoken].
Defined.

Lemma resolver_second_request_witness :
  let r := Sample.request "GET" "/v2/_catalog"
             (Sample.basic "Basic ZG9ja2VyO2RvY2tlci1odWI7cmVnaXN0cnkuZXhhbXBsZS5jb206dG9r") in
  let first := @authenticateAndGetCredentials Sample.externals Sample.clock r
                 NewProxyServer in
  let second := @authenticateAndGetCredentials Sample.externals
                  (mkClock 5000 5001) r first.2 in
  second.1 = inl (mkCredentials "alice" "s3cret" "",
                  mkRegistryConfig "docker" "docker-hub" "registry.example.com")
  /\ fetched second.2 = [("tok", "docker-hub")].
Proof.
  intros r first second.
  destruct (@resolver_second_request Sample.externals Sample.clock
              (mkClock 5000 5001) r NewProxyServer
              "docker;docker-hub;registry.example.com" "tok"
              (mkRegistryConfig "docker" "docker-hub" "registry.example.com")
              (mkCredentials "alice" "s3cret" ""))
    as (_ & Hsecond & Hfetched & _); [vm_compute; reflexivity ..| |].
  - left. vm_compute. discriminate.
  - split; [exact Hsecond | exact Hfetched].
Defined.

Lemma resolver_failure_not_cached_witness :
  let r := Sample.request "GET" "/v2/_catalog"
             (Sample.basic "Basic ZG9ja2VyO21pc3Npbmc7cmVnaXN0cnkuZXhhbXBsZS5jb206dG9r") in
  let first := @authenticateAndGetCredentials Sample.externals Sample.clock r
                 NewProxyServer in
  let second := @authenticateAndGetCredentials Sample.externals
                  (mkClock 5000 5001) r first.2 in
  fetched second.2 = [("tok", "missing"); ("tok", "missing")].
Proof.
  intros r first second.
  destruct (@resolver_failure_not_cached Sample.externals Sample.clock
              (mkClock 5000 5001) r NewProxyServer
              "docker;missing;registry.example.com" "tok"
              (mkRegistryConfig "docker" "missing" "registry.example.com")
              (Vault.ErrSecretNotFoundWith "no secret at this path"))
    as (_ & _ & _ & Hfetched); [vm_compute; reflexivity ..|].
  exact Hfetched.
Defined.

End ResolverMoreExamples.

(** ** What a handler answers *)

Section Outcomes.
Import GoStrings Http Middleware Registry Spec.
Context `{Externals}.

Lemma cons_neq_self {A : Type} (x : A) (l : list A) : x :: l <> l.
Proof. intros Heq. apply (f_equal length) in Heq. simpl in Heq. lia. Qed.

Lemma send_conclude (w : ResponseWriter) (out : ProxyRequest) (p : ProxyServer) :
  (let '(w', p', e) := send w out p in
   match e with
   | Some err =>
       Error w' ("failed to proxy request: " +:+ forwardErrorText err)
             StatusInternalServerError
   | None => w'
   end) = conclude w out.
Proof.
  unfold send, conclude, relay. destruct (clientDo out) as [d|resp]; [reflexivity|].
  by destruct (copyError resp).
Qed.

(** The three ways a handler can end: the resolver failed, the upstream
    request could not be built, or a request was handed to the client. *)
Lemma serve_outcomes (clk : Clock) (targetPath : string) (w : ResponseWriter)
    (r : Request) (p : ProxyServer) :
  let res := serve clk targetPath w r p in
  (exists err, res.1 = Error w (authErrorText err) StatusUnauthorized
               /\ forwarded res.2 = forwarded p)
  \/ (exists d, res.1 = Error w ("failed to proxy request: "
                                   +:+ forwardErrorText (ErrCreateRequest d))
                              StatusInternalServerError
                /\ forwarded res.2 = forwarded p)
  \/ (exists out, forwarded res.2 = out :: forwarded p
                  /\ res.1 = conclude w out).
Proof.
  intros res. subst res. unfold serve.
  destruct (ctxBearer r) as [bearerAuth|].
  - unfold proxyBearerRequest.
    destruct (newRequestError (Method r) _) as [d|].
    + right. left. exists d. by split.
    + right. right.
      set (out := mkProxyRequest (Method r)
                    (targetURL (Auth.baRegistryURL bearerAuth) targetPath
                               (RawQuery r))
                    (copyHeaders (Header_ r) ∅) (Body r)).
      exists out. pose proof (send_server w out p) as Hsend.
      pose proof (send_conclude w out p) as Hconc.
      destruct (send w out p) as [[w' p'] e]. cbn [fst snd] in Hsend. subst p'.
      rewrite <- Hconc. by destruct e.
  - pose proof (authenticate_forwarded clk r p) as Hfwd.
    destruct (authenticateAndGetCredentials clk r p) as [[[creds cfg]|err] p1];
      cbn [snd] in Hfwd.
    + unfold proxyRequest.
      destruct (newRequestError (Method r) _) as [d|].
      * right. left. exists d. by split.
      * right. right.
        set (out := mkProxyRequest (Method r)
                      (targetURL (Auth.RegistryURL cfg) targetPath (RawQuery r))
                      (SetBasicAuth (copyHeadersExceptAuthorization (Header_ r) ∅)
                         (Auth.Username creds) (Auth.Password creds)) (Body r)).
        exists out. pose proof (send_server w out p1) as Hsend.
        pose proof (send_conclude w out p1) as Hconc.
        destruct (send w out p1) as [[w' p'] e]. cbn [fst snd] in Hsend. subst p'.
        rewrite <- Hconc, <- Hfwd. by destruct e.
    + left. exists err. by split.
Qed.

Lemma relay_fresh (resp : UpstreamResponse) :
  let w' := (relay newWriter resp).1 in
  wStatus w' = Some (StatusCode resp) /\ wSent w' = rHeader resp
  /\ wBody w' = [Stream (rBody resp)].
Proof.
  unfold relay, Write, WriteHeader, withHeader, newWriter.
  cbn [wHeader wStatus wSent wBody]. rewrite copyHeaders_empty.
  by destruct (copyError resp).
Qed.

Lemma Error_fresh (error : string) (code : Z) :
  let w' := Error newWriter error code in
  wStatus w' = Some code /\ wBody w' = [TextLine error]
  /\ HeaderGet (wSent w') "Content-Type" = "text/plain; charset=utf-8".
Proof.
  unfold Error, Write, WriteHeader, withHeader, newWriter, HeaderSet, HeaderDel,
    HeaderGet.
  cbn [wHeader wStatus wSent wBody].
  replace (CanonicalMIMEHeaderKey "Content-Type") with "Content-Type"
    by (vm_compute; reflexivity).
  replace (CanonicalMIMEHeaderKey "X-Content-Type-Options")
    with "X-Content-Type-Options" by (vm_compute; reflexivity).
  split; [reflexivity|]. split; [reflexivity|].
  rewrite lookup_insert_ne by (intros ?; discriminate).
  by rewrite lookup_insert_eq.
Qed.

(** X10.  Pass-through of the upstream's answer.  When the request a
    handler forwarded is answered, the client gets the upstream's status
    code, exactly the upstream's headers, and the body.  If the body stream
    breaks, status and headers have gone out already: they stay the
    upstream's, and the error text is appended to the body instead of a
    500 being sent. *)
Theorem response_passthrough (clk : Clock) (targetPath : string) (r : Request)
    (p : ProxyServer) (out : ProxyRequest) (resp : UpstreamResponse) :
  let res := serve clk targetPath newWriter r p in
  forwarded res.2 = out :: forwarded p ->
  clientDo out = inr resp ->
  wStatus res.1 = Some (StatusCode resp)
  /\ wSent res.1 = rHeader resp
  /\ wBody res.1
     = match copyError resp with
       | None => [Stream (rBody resp)]
       | Some d =>
           [Stream (rBody resp);
            TextLine ("failed to proxy request: failed to copy response body: "
                        +:+ d)]
       end.
Proof.
  intros res Hfwd Hdo.
  destruct (serve_outcomes clk targetPath newWriter r p)
    as [(err & _ & Hsame)|[(d & _ & Hsame)|(out' & Hout & Hres)]];
    fold res in Hsame || fold res in Hout, Hres.
  - rewrite Hfwd in Hsame. by apply cons_neq_self in Hsame.
  - rewrite Hfwd in Hsame. by apply cons_neq_self in Hsame.
  - rewrite Hfwd in Hout. inversion Hout; subst out'.
    rewrite Hres. unfold conclude. rewrite Hdo.
    destruct (relay_fresh resp) as (Hst & Hsent & Hbody).
    destruct (copyError resp) as [d|]; [|by repeat split].
    unfold Error, Write, WriteHeader, withHeader.
    cbn [wHeader wStatus wSent wBody]. rewrite Hst.
    cbn [wHeader wStatus wSent wBody]. rewrite Hsent, Hbody.
    repeat split; reflexivity.
Qed.

(** X11.  When the client cannot reach the upstream, the handler answers
    500 with one line of plain text, the transport error's text behind two
    fixed prefixes, and nothing else. *)
Theorem forward_failure (clk : Clock) (targetPath : string) (r : Request)
    (p : ProxyServer) (out : ProxyRequest) (d : string) :
  let res := serve clk targetPath newWriter r p in
  forwarded res.2 = out :: forwarded p ->
  clientDo out = inl d ->
  wStatus res.1 = Some StatusInternalServerError
  /\ wBody res.1
     = [TextLine ("failed to proxy request: failed to forward request: " +:+ d)]
  /\ HeaderGet (wSent res.1) "Content-Type" = "text/plain; charset=utf-8".
Proof.
  intros res Hfwd Hdo.
  destruct (serve_outcomes clk targetPath newWriter r p)
    as [(err & _ & Hsame)|[(d' & _ & Hsame)|(out' & Hout & Hres)]];
    fold res in Hsame || fold res in Hout, Hres.
  - rewrite Hfwd in Hsame. by apply cons_neq_self in Hsame.
  - rewrite Hfwd in Hsame. by apply cons_neq_self in Hsame.
  - rewrite Hfwd in Hout. inversion Hout; subst out'.
    rewrite Hres. unfold conclude. rewrite Hdo. apply Error_fresh.
Qed.

(** X12.  A handler that forwards nothing has answered with an error of
    its own: 401 when the resolver failed, 500 when the upstream request
    could not be built, in either case one line of plain text. *)
Theorem nothing_forwarded_is_an_error (clk : Clock) (targetPath : string)
    (r : Request) (p : ProxyServer) :
  let res := serve clk targetPath newWriter r p in
  forwarded res.2 = forwarded p ->
  (wStatus res.1 = Some StatusUnauthorized
   \/ wStatus res.1 = Some StatusInternalServerError)
  /\ (exists text, wBody res.1 = [TextLine text])
  /\ HeaderGet (wSent res.1) "Content-Type" = "text/plain; charset=utf-8".
Proof.
  intros res Hfwd.
  destruct (serve_outcomes clk targetPath newWriter r p)
    as [(err & Hres & _)|[(d & Hres & _)|(out & Hout & _)]];
    fold res in Hres || fold res in Hout.
  - rewrite Hres.
    destruct (Error_fresh (authErrorText err) StatusUnauthorized)
      as (Hst & Hbody & Hct).
    split; [by left|]. split; [eauto | exact Hct].
  - rewrite Hres.
    destruct (Error_fresh ("failed to proxy request: "
                             +:+ forwardErrorText (ErrCreateRequest d))
                          StatusInternalServerError) as (Hst & Hbody & Hct).
    split; [by right|]. split; [eauto | exact Hct].
  - rewrite Hfwd in Hout. symmetry in Hout. by apply cons_neq_self in Hout.
Qed.

End Outcomes.

Section OutcomesExamples.
Import Http Middleware Registry.

Lemma response_passthrough_witness :
  let r := mkRequest "GET" "/v2/_catalog" "n=5"
             (Sample.basic "Bearer abc.def") "" None
             (Some (Auth.mkBearerAuth "abc.def" "quay.io")) in
  let res := @serve Sample.externals Sample.clock "/_catalog" newWriter r
               NewProxyServer in
  wStatus res.1 = Some 200
  /\ wSent res.1 = {[ "Content-Type" := ["application/json"] ]}
  /\ wBody res.1 = [Stream "{}"].
Proof.
  intros r res.
  destruct (@response_passthrough Sample.externals Sample.clock "/_catalog" r
              NewProxyServer
              (mkProxyRequest "GET" "https://quay.io/v2/_catalog?n=5" (Header_ r) "")
              (mkUpstreamResponse 200 {[ "Content-Type" := ["application/json"] ]}
                                  "{}" None))
    as (Hst & Hsent & Hbody); [vm_compute; reflexivity ..|].
  split; [exact Hst|]. split; [exact Hsent | exact Hbody].
Defined.

Lemma forward_failure_witness :
  let r := Sample.request "GET" "/v2/_catalog"
             (Sample.basic "Basic ZG9ja2VyO2RvY2tlci1odWI7ZG93bi5leGFtcGxlLmNvbTp0b2s=") in
  let res := @serve Sample.externals Sample.clock "/_catalog" newWriter r
               NewProxyServer in
  wStatus res.1 = Some 500.
Proof.
  intros r res.
  destruct (@forward_failure Sample.externals Sample.clock "/_catalog" r
              NewProxyServer
              (mkProxyRequest "GET" "https://down.example.com/v2/_catalog"
                 {[ "Authorization" := ["Basic YWxpY2U6czNjcmV0"] ]} "")
              "dial tcp: connection refused") as (Hst & _);
    [vm_compute; reflexivity ..|].
  exact Hst.
Defined.

Lemma nothing_forwarded_is_an_error_witness :
  let r := Sample.request "GET" "/v2/_catalog"
             (Sample.basic "Basic ZG9ja2VyO21pc3Npbmc7cmVnaXN0cnkuZXhhbXBsZS5jb206dG9r") in
  let res := @serve Sample.externals Sample.clock "/_catalog" newWriter r
               NewProxyServer in
  exists text, wBody res.1 = [TextLine text].
Proof.
  intros r res.
  destruct (@nothing_forwarded_is_an_error Sample.externals Sample.clock
              "/_catalog" r NewProxyServer) as (_ & Hbody & _);
    [vm_compute; reflexivity|].
  exact Hbody.
Defined.

End OutcomesExamples.

(** ** The middleware as a gate *)

Section Gate.
Import GoStrings Http Auth Middleware Registry Spec.
Context `{Externals}.

Lemma HasPrefix_true (s prefix : string) :
  HasPrefix s prefix = true -> s = prefix +:+ slice_from (len prefix) s.
Proof.
  revert s. induction prefix as [|c prefix IH]; intros s Hpre.
  - by destruct s.
  - destruct s as [|d s]; [discriminate|]. simpl in Hpre.
    destruct (Ascii.eqb d c) eqn:Hdc; [|discriminate].
    apply Ascii.eqb_eq in Hdc as ->.
    change (String c s = String c (prefix +:+ slice_from (len prefix) s)).
    by rewrite <- (IH s Hpre).
Qed.

Lemma challenge_enveloped (m : Middleware.Middleware) (r : Request) :
  wStatus (challengeAuth m newWriter r) = Some StatusUnauthorized
  /\ isErrorEnvelope (wBody (challengeAuth m newWriter r)) = true.
Proof.
  destruct (challengeAuth_response m r) as (Hst & _ & _ & Hbody).
  split; [exact Hst|]. rewrite Hbody. vm_compute. reflexivity.
Qed.

(** X13.  The middleware as a gate in front of an authenticated route.
    The next handler is reached either in Bearer mode, with a non-empty
    token taken from the Authorization header and a non-empty registry
    host, or in Basic mode, with the username and password of the Basic
    header, the username being a valid locator; the request is otherwise
    unchanged and nothing has been written to the response.  Every other
    request is answered 401 with the JSON error body and the next handler
    is not reached. *)
Theorem middleware_gate (m : Middleware.Middleware) (r : Request) :
  Path r <> "/v2/" ->
  let res := DockerRegistryAuth m probe newWriter r None in
  match res.2 with
  | Some r' =>
      res.1 = newWriter
      /\ ((exists tok host,
             r' = withBearer r (mkBearerAuth tok host)
             /\ tok <> "" /\ host <> ""
             /\ HeaderGet (Header_ r) "Authorization" = "Bearer " +:+ tok)
          \/ (exists username password cfg,
                r' = withAuth r (mkAuthHeader username password)
                /\ BasicAuth r = Some (username, password)
                /\ ParseUsername username = inl cfg))
  | None =>
      wStatus res.1 = Some StatusUnauthorized
      /\ isErrorEnvelope (wBody res.1) = true
  end.
Proof.
  intros Hpath res. subst res. unfold DockerRegistryAuth.
  apply String.eqb_neq in Hpath. rewrite Hpath.
  destruct (String.eqb (HeaderGet (Header_ r) "Authorization") "") eqn:Hauth.
  { cbn [fst snd]. apply challenge_enveloped. }
  destruct (HasPrefix (HeaderGet (Header_ r) "Authorization") "Bearer ") eqn:Hbearer.
  - unfold handleBearerAuth, TrimPrefix. rewrite Hbearer.
    set (tok := slice_from (len "Bearer ")
                  (HeaderGet (Header_ r) "Authorization")).
    destruct (String.eqb tok "") eqn:Htok.
    { cbn [fst snd]. apply challenge_enveloped. }
    unfold probe. cbn [fst snd]. split; [reflexivity|]. left.
    eexists tok, _. split; [reflexivity|].
    split; [by apply String.eqb_neq|]. split.
    + destruct (String.eqb (extractRegistryURL r) "") eqn:Hhost.
      * intros ?; discriminate.
      * by apply String.eqb_neq.
    + apply (HasPrefix_true _ _ Hbearer).
  - unfold handleBasicAuth.
    destruct (BasicAuth r) as [[username password]|] eqn:Hbasic.
    + destruct (ParseUsername username) as [cfg|e] eqn:Hparse.
      * unfold probe. cbn [fst snd]. split; [reflexivity|]. right.
        by exists username, password, cfg.
      * cbn [fst snd]. split; [reflexivity|].
        by apply middleware_errors_enveloped.
    + cbn [fst snd]. apply challenge_enveloped.
Qed.

(** X14.  [RequireAuth] against what the middleware lets through: a
    request without a Basic context, so every request admitted in Bearer
    mode, is refused as unauthenticated; a request admitted in Basic mode
    is refused as invalid exactly when its password is empty, which the
    middleware does not check, and is accepted otherwise. *)
Theorem RequireAuth_after_middleware (r : Request) :
  (ctxAuth r = None ->
   RequireAuth r = inr "authentication required"
   /\ forall bearerAuth,
        RequireAuth (withBearer r bearerAuth) = inr "authentication required")
  /\ (forall username password cfg,
        ParseUsername username = inl cfg ->
        RequireAuth (withAuth r (mkAuthHeader username password))
        = if String.eqb password ""
          then inr "invalid authentication credentials"
          else inl (mkAuthHeader username password)).
Proof.
  unfold RequireAuth, GetAuthFromContext. split.
  - intros Hctx. cbn [withBearer ctxAuth]. by rewrite Hctx.
  - intros username password cfg Hparse. cbn [withAuth ctxAuth ahUsername ahPassword].
    destruct username as [|c u]; [vm_compute in Hparse; discriminate|].
    reflexivity.
Qed.

(** X15.  The version check is open: on the path [/v2/] the middleware
    looks at no header, and [APIVersionCheck] answers 200 with the API
    version header and an empty body, leaving the server as it was. *)
Theorem version_check_open (m : Middleware.Middleware) (r : Request)
    (p : ProxyServer) :
  Path r = "/v2/" ->
  let res := DockerRegistryAuth m APIVersionCheck newWriter r p in
  wStatus res.1 = Some StatusOK
  /\ HeaderGet (wSent res.1) "Docker-Distribution-API-Version" = "registry/2.0"
  /\ wBody res.1 = [] /\ res.2 = p.
Proof.
  intros Hpath res. subst res. unfold DockerRegistryAuth. rewrite Hpath.
  cbn [String.eqb Ascii.eqb Bool.eqb].
  unfold APIVersionCheck, WriteHeader, withHeader, HeaderSet, HeaderGet, newWriter.
  cbn [fst snd wHeader wStatus wSent wBody].
  destruct canonical_keys as (_ & -> & _).
  rewrite lookup_insert_eq. repeat split; reflexivity.
Qed.

(** X16.  Middleware and resolver agree.  On a request that the
    middleware admitted in Basic mode the resolver finds the same username
    and password again: it cannot fail for missing credentials or an
    invalid locator, only because the secret store did, after one read,
    and then the cache is unchanged. *)
Theorem admitted_basic_fails_only_on_vault (clk : Clock) (r : Request)
    (p p1 : ProxyServer) (username password : string) (cfg : RegistryConfig)
    (err : AuthError) :
  BasicAuth r = Some (username, password) ->
  ParseUsername username = inl cfg ->
  authenticateAndGetCredentials clk (withAuth r (mkAuthHeader username password)) p
  = (inr err, p1) ->
  exists e, err = ErrVaultFetch e
            /\ Vault.GetCredentials (kvGet password (VaultPath cfg)) = inr e
            /\ fetched p1 = (password, VaultPath cfg) :: fetched p
            /\ cache p1 = cache p.
Proof.
  intros Hbasic Hparse Hres.
  assert (BasicAuth (withAuth r (mkAuthHeader username password))
          = Some (username, password)) as Hbasic' by exact Hbasic.
  destruct (Cache.Get (cache p) (atGet clk) password (VaultPath cfg))
    as [creds|] eqn:Hget.
  - rewrite (authenticate_hit _ _ _ _ _ _ _ Hbasic' Hparse Hget) in Hres.
    discriminate.
  - rewrite (authenticate_miss _ _ _ _ _ _ Hbasic' Hparse Hget) in Hres.
    destruct (Vault.GetCredentials (kvGet password (VaultPath cfg)))
      as [creds|e]; [discriminate|].
    inversion Hres; subst. exists e. repeat split; reflexivity.
Qed.

End Gate.

Section GateExamples.
Import Http Auth Middleware Registry Spec.

Lemma middleware_gate_witness :
  let r := Sample.request "GET" "/v2/_catalog" (Sample.basic "Bearer abc.def") in
  let res := @DockerRegistryAuth Sample.externals _ Sample.middleware probe
               newWriter r None in
  match res.2 with
  | Some r' => res.1 = newWriter
  | None => wStatus res.1 = Some StatusUnauthorized
  end.
Proof.
  intros r res.
  assert (Path r <> "/v2/") as Hpath by (intros ?; discriminate).
  pose proof (@middleware_gate Sample.externals Sample.middleware r Hpath)
    as Hgate.
  cbv zeta in Hgate. fold res in Hgate. revert Hgate.
  destruct res.2 as [r'|]; intros Hgate; apply Hgate.
Defined.

Lemma RequireAuth_after_middleware_witness :
  RequireAuth (withAuth (Sample.request "GET" "/v2/_catalog" ∅)
                 (mkAuthHeader "docker;docker-hub;registry.example.com" ""))
  = inr "invalid authentication credentials".
Proof.
  destruct (RequireAuth_after_middleware (Sample.request "GET" "/v2/_catalog" ∅))
    as (_ & Hbasic).
  apply (Hbasic "docker;docker-hub;registry.example.com" ""
                (mkRegistryConfig "docker" "docker-hub" "registry.example.com")).
  vm_compute. reflexivity.
Defined.

Lemma version_check_open_witness :
  wStatus (@DockerRegistryAuth Sample.externals _ Sample.middleware
             APIVersionCheck newWriter
             (Sample.request "GET" "/v2/" (Sample.basic "garbage"))
             NewProxyServer).1 = Some 200.
Proof.
  destruct (@version_check_open Sample.externals Sample.middleware
              (Sample.request "GET" "/v2/" (Sample.basic "garbage"))
              NewProxyServer) as (Hst & _); [reflexivity|].
  exact Hst.
Defined.

Lemma admitted_basic_fails_only_on_vault_witness :
  exists e,
    ErrVaultFetch (Vault.ErrSecretNotFoundWith "no secret at this path")
    = ErrVaultFetch e.
Proof.
  destruct (@admitted_basic_fails_only_on_vault Sample.externals Sample.clock
              (Sample.request "GET" "/v2/_catalog"
                 (Sample.basic "Basic ZG9ja2VyO21pc3Npbmc7cmVnaXN0cnkuZXhhbXBsZS5jb206dG9r"))
              NewProxyServer
              (mkProxyServer "tok" Cache.NewCredentialCache
                 [("tok", "missing")] [])
              "docker;missing;registry.example.com" "tok"
              (mkRegistryConfig "docker" "missing" "registry.example.com")
              (ErrVaultFetch (Vault.ErrSecretNotFoundWith "no secret at this path")))
    as (e & He & _); [vm_compute; reflexivity ..|].
  by exists e.
Defined.

End GateExamples.

(** ** Scopes of repository paths *)

Section ScopesMore.
Import GoStrings Http Middleware Spec.

Lemma append_assoc' (a b c : string) : (a +:+ b) +:+ c = a +:+ (b +:+ c).
Proof.
  induction a as [|x a IH]; [reflexivity|].
  change (String x ((a +:+ b) +:+ c) = String x (a +:+ (b +:+ c))).
  by rewrite IH.
Qed.

Lemma len_app (a b : string) : len (a +:+ b) = (len a + len b)%nat.
Proof.
  induction a as [|x a IH]; [reflexivity|].
  change (S (len (a +:+ b)) = S (len a + len b)). by rewrite IH.
Qed.

Lemma occurs_app (c : ascii) (a b : string) :
  occurs c (a +:+ b) = occurs c a || occurs c b.
Proof.
  induction a as [|x a IH]; [reflexivity|].
  change (Ascii.eqb x c || occurs c (a +:+ b)
          = Ascii.eqb x c || occurs c a || occurs c b).
  rewrite IH. by destruct (Ascii.eqb x c).
Qed.

Lemma genSplit_whole (c : ascii) (k : nat) (s : string) :
  occurs c s = false -> genSplit k s (String c EmptyString) = [s].
Proof.
  intros Hfree. destruct k; [reflexivity|]. simpl.
  by rewrite (Index_byte_None c s Hfree).
Qed.

Lemma genSplit_cons (k : nat) (s sep : string) :
  exists x l, genSplit k s sep = x :: l.
Proof. destruct k; simpl; [eauto|]. destruct (Index s sep); eauto. Qed.

(** With fuel to spare, a string that ends in a separator and a segment
    free of it splits as its front does, followed by that segment. *)
Lemma genSplit_snoc (c : ascii) (k j : nat) (front e : string) :
  (len front <= k)%nat -> occurs c e = false ->
  genSplit (S k + j) (front +:+ String c e) (String c EmptyString)
  = genSplit k front (String c EmptyString) ++ [e].
Proof.
  revert front. induction k as [|k IH]; intros front Hlen Hfree.
  - destruct front; [|simpl in Hlen; lia].
    change (genSplit (S j) (EmptyString +:+ String c e) (String c EmptyString)
            = [EmptyString; e]).
    rewrite (genSplit_cut j c EmptyString e eq_refl).
    by rewrite (genSplit_whole c j e Hfree).
  - change (S (S k) + j)%nat with (S (S k + j)).
    destruct (occurs c front) eqn:Hocc.
    + destruct (Index_byte_occurs c front Hocc) as [m Hm].
      destruct (Index_byte_Some c front m Hm) as (a & r & -> & Ha & ->).
      rewrite append_assoc'.
      change (String c r +:+ String c e) with (String c (r +:+ String c e)).
      rewrite (genSplit_cut (S k + j) c a _ Ha), (genSplit_cut k c a _ Ha).
      rewrite IH; [reflexivity | | exact Hfree].
      rewrite len_app in Hlen. simpl in Hlen. lia.
    + rewrite (genSplit_cut (S k + j) c front e Hocc).
      rewrite (genSplit_whole c _ e Hfree), (genSplit_whole c _ front Hocc).
      reflexivity.
Qed.

(** Joining what a split returned gives the string back. *)
Lemma Join_genSplit (c : ascii) (k : nat) (s : string) :
  Join (genSplit k s (String c EmptyString)) (String c EmptyString) = s.
Proof.
  revert s. induction k as [|k IH]; intros s; [reflexivity|]. simpl genSplit.
  destruct (Index s (String c EmptyString)) as [m|] eqn:Hm; [|reflexivity].
  destruct (Index_byte_Some c s m Hm) as (a & r & -> & Ha & ->).
  rewrite slice_to_app, slice_from_app. simpl slice_from.
  specialize (IH r).
  destruct (genSplit_cons k r (String c EmptyString)) as (x & l & Hxl).
  rewrite Hxl in IH |- *.
  change (Join (a :: x :: l) (String c EmptyString))
    with (a +:+ String c EmptyString +:+ Join (x :: l) (String c EmptyString)).
  by rewrite IH.
Qed.

(** X17.  The scope of a repository path, in general.  For a path
    [/v2/<front>/<last>] whose last segment holds no slash, the repository
    name is everything between [/v2/] and the last slash, and the action
    is push when the last segment is [uploads] and pull otherwise,
    whatever the method. *)
Theorem extractScope_repository (r : Request) (front last : string) :
  Path r = "/v2/" +:+ front +:+ "/" +:+ last ->
  occurs "/"%char last = false ->
  extractScope r
  = "repository:" +:+ front +:+ ":"
      +:+ (if String.eqb last "uploads" then "push" else "pull").
Proof.
  intros Hpath Hfree. unfold extractScope, TrimPrefix.
  rewrite Hpath, HasPrefix_app, slice_from_len_app.
  assert (occurs "/"%char (front +:+ "/" +:+ last) = true) as Hocc.
  { rewrite occurs_app. apply orb_true_iff. right. reflexivity. }
  assert (String.eqb (front +:+ "/" +:+ last) "_catalog" = false) as ->.
  { apply String.eqb_neq. intros Heq. rewrite Heq in Hocc. discriminate. }
  unfold Contains.
  destruct (Index_byte_occurs _ _ Hocc) as [m ->].
  assert (Split (front +:+ "/" +:+ last) "/" = Split front "/" ++ [last])
    as ->.
  { unfold Split. rewrite len_app.
    change (len ("/" +:+ last)) with (S (len last)).
    replace (len front + S (len last))%nat with (S (len front) + len last)%nat
      by lia.
    apply (genSplit_snoc "/" (len front) (len last) front last); [lia | exact Hfree]. }
  destruct (genSplit_cons (len front) front "/") as (x & l & Hxl).
  unfold Split. rewrite Hxl.
  assert (length ((x :: l) ++ [last]) - 1 = length (x :: l))%nat as ->
    by (rewrite length_app; simpl; lia).
  assert (Nat.leb 2 (length ((x :: l) ++ [last])) = true) as ->
    by (apply Nat.leb_le; rewrite length_app; simpl; lia).
  rewrite take_app_length, nth_middle, <- Hxl.
  rewrite (Join_genSplit "/" (len front) front).
  by rewrite (getActionFromEndpoint_free last (Method r) Hfree).
Qed.

Lemma extractScope_repository_witness :
  extractScope (Sample.request "POST" "/v2/library/nginx/blobs/uploads" ∅)
  = "repository:library/nginx/blobs:push".
Proof.
  apply (extractScope_repository
           (Sample.request "POST" "/v2/library/nginx/blobs/uploads" ∅)
           "library/nginx/blobs" "uploads"); reflexivity.
Defined.

End ScopesMore.

(** ** Target URLs and routes *)

Section Routes.
Import GoStrings Http Middleware Registry Spec.
Context `{Externals}.

Lemma HasPrefix_app_l (a b prefix : string) :
  HasPrefix a prefix = true -> HasPrefix (a +:+ b) prefix = true.
Proof.
  revert a. induction prefix as [|c prefix IH]; intros a Hpre; [reflexivity|].
  destruct a as [|d a]; [discriminate|]. simpl in Hpre.
  change (HasPrefix (String d (a +:+ b)) (String c prefix) = true). simpl.
  destruct (Ascii.eqb d c); [by apply IH | discriminate].
Qed.

(** X18.  The upstream URL always has a scheme: a host that comes with
    [http://] or [https://] keeps it, plain HTTP included, and any other
    host gets [https://], so that spelling the default scheme out changes
    nothing. *)
Theorem targetURL_scheme (registryURL targetPath rawQuery : string) :
  let url := targetURL registryURL targetPath rawQuery in
  HasPrefix url "http://" || HasPrefix url "https://" = true
  /\ (HasPrefix registryURL "http://" || HasPrefix registryURL "https://" = true ->
      HasPrefix url registryURL = true)
  /\ (HasPrefix registryURL "http://" || HasPrefix registryURL "https://" = false ->
      HasPrefix url ("https://" +:+ registryURL) = true
      /\ targetURL ("https://" +:+ registryURL) targetPath rawQuery = url).
Proof.
  intros url. subst url.
  assert (forall origin prefix,
            HasPrefix origin prefix = true ->
            HasPrefix (let u := origin +:+ "/v2" +:+ targetPath in
                       if negb (String.eqb rawQuery "")
                       then u +:+ "?" +:+ rawQuery else u) prefix = true)
    as Hkeeps.
  { intros origin prefix Hpre. cbv zeta.
    destruct (String.eqb rawQuery ""); cbn [negb];
      repeat apply HasPrefix_app_l; exact Hpre. }
  assert (forall a, HasPrefix a a = true) as Hrefl.
  { intros a. rewrite <- (append_empty_r a) at 1. apply HasPrefix_app. }
  unfold targetURL.
  destruct (HasPrefix registryURL "http://") eqn:Hhttp;
    destruct (HasPrefix registryURL "https://") eqn:Hhttps; cbn [negb andb orb].
  - split; [apply orb_true_iff; left; exact (Hkeeps _ _ Hhttp)|].
    split; [intros _; exact (Hkeeps _ _ (Hrefl registryURL)) | discriminate].
  - split; [apply orb_true_iff; left; exact (Hkeeps _ _ Hhttp)|].
    split; [intros _; exact (Hkeeps _ _ (Hrefl registryURL)) | discriminate].
  - split; [apply orb_true_iff; right; exact (Hkeeps _ _ Hhttps)|].
    split; [intros _; exact (Hkeeps _ _ (Hrefl registryURL)) | discriminate].
  - split; [apply orb_true_iff; right;
            exact (Hkeeps ("https://" +:+ registryURL) "https://"
                          (HasPrefix_app _ _))|].
    split; [discriminate|]. intros _. split.
    + exact (Hkeeps _ _ (Hrefl ("https://" +:+ registryURL))).
    + change (HasPrefix ("https://" +:+ registryURL) "http://") with false.
      rewrite (HasPrefix_app "https://" registryURL). reflexivity.
Qed.




End Routes.

Section RoutesExamples.
Import GoStrings Http Registry Spec.

Lemma targetURL_scheme_witness :
  targetURL "http://localhost:5000" "/_catalog" "n=5"
  = "http://localhost:5000/v2/_catalog?n=5"
  /\ HasPrefix (targetURL "quay.io" "/_catalog" "") "https://quay.io" = true.
Proof.
  destruct (targetURL_scheme "quay.io" "/_catalog" "") as (_ & _ & Hdefault).
  destruct Hdefault as (Hpre & _); [reflexivity|].
  split; [reflexivity | exact Hpre].
Defined.


End RoutesExamples.

(** ** A Basic request from end to end *)

Section EndToEnd.
Import GoStrings Http Auth Middleware Registry Spec.
Context `{Externals}.

Lemma middleware_basic_admits {S : Type} (m : Middleware.Middleware)
    (next : Handler S) (w : ResponseWriter) (r : Request) (st : S)
    (username password : string) (cfg : RegistryConfig) :
  Path r <> "/v2/" ->
  HasPrefix (HeaderGet (Header_ r) "Authorization") "Bearer " = false ->
  BasicAuth r = Some (username, password) ->
  ParseUsername username = inl cfg ->
  DockerRegistryAuth m next w r st
  = next w (withAuth r (mkAuthHeader username password)) st.
Proof.
  intros Hpath Hbearer Hbasic Hparse. unfold DockerRegistryAuth.
  apply String.eqb_neq in Hpath. rewrite Hpath, Hbearer.
  destruct (String.eqb (HeaderGet (Header_ r) "Authorization") "") eqn:Hauth.
  { unfold BasicAuth in Hbasic. rewrite Hauth in Hbasic. discriminate. }
  unfold handleBasicAuth. by rewrite Hbasic, Hparse.
Qed.

(** X20.  Two identical Basic requests through middleware and handler, the
    cache cold, the secret store holding credentials at the locator's
    path, the second lookup within the TTL of the first store.  Each
    request is forwarded to the locator's registry with the inbound
    Authorization header replaced by the Basic header of the stored
    credentials; the secret store is read once for the two. *)
Theorem basic_end_to_end (m : Middleware.Middleware) (clk clk' : Clock)
    (route : Route) (w : ResponseWriter) (r : Request) (p : ProxyServer)
    (username password : string) (cfg : RegistryConfig) (creds : Credentials) :
  Path r <> "/v2/" -> ctxBearer r = None ->
  HasPrefix (HeaderGet (Header_ r) "Authorization") "Bearer " = false ->
  BasicAuth r = Some (username, password) ->
  ParseUsername username = inl cfg ->
  Cache.Get (cache p) (atGet clk) password (VaultPath cfg) = None ->
  Vault.GetCredentials (kvGet password (VaultPath cfg)) = inl creds ->
  atGet clk' <= atSet clk + GoCache.defaultExpiration (cache p)
  \/ GoCache.defaultExpiration (cache p) <= 0 ->
  let out := mkProxyRequest (Method r)
               (targetURL (RegistryURL cfg) (routeTarget route r) (RawQuery r))
               (SetBasicAuth (delete "Authorization" (Header_ r))
                             (Username creds) (Password creds))
               (Body r) in
  newRequestError (Method r) (pURL out) = None ->
  let first := DockerRegistryAuth m (handler clk route) w r p in
  let second := DockerRegistryAuth m (handler clk' route) w r first.2 in
  forwarded first.2 = out :: forwarded p
  /\ forwarded second.2 = out :: out :: forwarded p
  /\ fetched second.2 = (password, VaultPath cfg) :: fetched p.
Proof.
  intros Hpath Hctx Hbearer Hbasic Hparse Hmiss Hfetch Hfresh out Hnew
         first second.
  assert (newRequestError (Method r)
            (targetURL (RegistryURL cfg) (routeTarget route r) (RawQuery r))
          = None) as Hnew' by exact Hnew.
  set (r' := withAuth r (mkAuthHeader username password)).
  assert (BasicAuth r' = Some (username, password)) as Hbasic' by exact Hbasic.
  assert (ctxBearer r' = None) as Hctx' by exact Hctx.
  set (p1 := mkProxyServer password
               (Cache.Set_ (cache p) (atSet clk) password (VaultPath cfg) creds)
               ((password, VaultPath cfg) :: fetched p) (forwarded p)).
  assert (first.2 = mkProxyServer (vaultToken p1) (cache p1) (fetched p1)
                                  (out :: forwarded p1)) as Hfirst.
  { subst first.
    rewrite (middleware_basic_admits _ _ _ _ _ _ _ _ Hpath Hbearer Hbasic Hparse).
    fold r'. rewrite handler_serve.
    rewrite (serve_basic_server _ _ _ _ _ p1 creds cfg Hctx').
    - rewrite proxyRequest_server.
      change (routeTarget route r') with (routeTarget route r).
      change (RawQuery r') with (RawQuery r).
      change (Method r') with (Method r). rewrite Hnew'. reflexivity.
    - rewrite (authenticate_miss _ _ _ _ _ _ Hbasic' Hparse Hmiss).
      by rewrite Hfetch. }
  assert (second.2 = mkProxyServer (vaultToken p1) (cache p1) (fetched p1)
                                   (out :: out :: forwarded p1)) as Hsecond.
  { subst second. rewrite Hfirst.
    rewrite (middleware_basic_admits _ _ _ _ _ _ _ _ Hpath Hbearer Hbasic Hparse).
    fold r'. rewrite handler_serve.
    rewrite (serve_basic_server _ _ _ _ _
               (mkProxyServer password (cache p1) (fetched p1)
                              (out :: forwarded p1)) creds cfg Hctx').
    - rewrite proxyRequest_server.
      change (routeTarget route r') with (routeTarget route r).
      change (RawQuery r') with (RawQuery r).
      change (Method r') with (Method r). rewrite Hnew'. reflexivity.
    - rewrite (authenticate_hit _ _ _ _ _ _ creds Hbasic' Hparse);
        [reflexivity|].
      cbn [cache p1]. unfold Cache.Get, Cache.Set_. by apply Get_Set_fresh. }
  rewrite Hfirst, Hsecond. repeat split; reflexivity.
Qed.

End EndToEnd.

Section EndToEndExamples.
Import Http Auth Middleware Registry.

Lemma basic_end_to_end_witness :
  let r := Sample.request "GET" "/v2/_catalog"
             (Sample.basic "Basic ZG9ja2VyO2RvY2tlci1odWI7cmVnaXN0cnkuZXhhbXBsZS5jb206dG9r") in
  let first := @DockerRegistryAuth Sample.externals _ Sample.middleware
                 (@handler Sample.externals Sample.clock RouteCatalog)
                 newWriter r NewProxyServer in
  let second := @DockerRegistryAuth Sample.externals _ Sample.middleware
                  (@handler Sample.externals (mkClock 5000 5001) RouteCatalog)
                  newWriter r first.2 in
  length (forwarded second.2) = 2%nat
  /\ fetched second.2 = [("tok", "docker-hub")].
Proof.
  intros r first second.
  destruct (@basic_end_to_end Sample.externals Sample.middleware Sample.clock
              (mkClock 5000 5001) RouteCatalog newWriter r NewProxyServer
              "docker;docker-hub;registry.example.com" "tok"
              (mkRegistryConfig "docker" "docker-hub" "registry.example.com")
              (mkCredentials "alice" "s3cret" ""))
    as (_ & Hforwarded & Hfetched);
    [intros ?; discriminate | vm_compute; reflexivity ..
     | left; vm_compute; discriminate | vm_compute; reflexivity |].
  fold first second in Hforwarded, Hfetched. rewrite Hforwarded.
  split; [reflexivity | exact Hfetched].
Defined.

End EndToEndExamples.

(** ** The shape of cache keys and of parsed locators *)

Section Shapes.
Import GoStrings Http Auth Cache Spec.

Lemma round_length (st : list Z) (kw : Z * Z) :
  length (Sha256.round st kw) = length st.
Proof.
  destruct st as [|a [|b [|c [|d [|e [|f [|g [|h [|i st]]]]]]]]]; reflexivity.
Qed.

Lemma rounds_length (kws : list (Z * Z)) (st : list Z) :
  length (fold_left Sha256.round kws st) = length st.
Proof.
  revert st. induction kws as [|kw kws IH]; intros st; [reflexivity|].
  simpl. by rewrite IH, round_length.
Qed.

Lemma compress_length (h block : list Z) :
  length (Sha256.compress h block) = length h.
Proof.
  unfold Sha256.compress. rewrite length_map, length_combine, rounds_length.
  lia.
Qed.

Lemma blocks_length (n : nat) (h ws : list Z) :
  length (Sha256.blocks n h ws) = length h.
Proof.
  revert h ws. induction n as [|n IH]; intros h ws; [reflexivity|].
  simpl. by rewrite IH, compress_length.
Qed.

Lemma be_bytes_4 (x : Z) :
  exists b3 b2 b1 b0,
    Sha256.be_bytes 4 x = [b3; b2; b1; b0]
    /\ Forall (fun b => 0 <= b < 256) [b3; b2; b1; b0].
Proof.
  unfold Sha256.be_bytes. simpl. do 4 eexists. split; [reflexivity|].
  repeat constructor; apply Z.mod_pos_bound; lia.
Qed.

Lemma digest_bytes (l : list Z) :
  length (flat_map (Sha256.be_bytes 4) l) = (4 * length l)%nat
  /\ Forall (fun b => 0 <= b < 256) (flat_map (Sha256.be_bytes 4) l).
Proof.
  induction l as [|x l [IHlen IHall]]; [by split|].
  destruct (be_bytes_4 x) as (b3 & b2 & b1 & b0 & Hx & Hall).
  change (flat_map (Sha256.be_bytes 4) (x :: l))
    with (Sha256.be_bytes 4 x ++ flat_map (Sha256.be_bytes 4) l).
  rewrite Hx. split.
  - rewrite length_app, IHlen. simpl. lia.
  - apply Forall_app. by split.
Qed.

Lemma hexdigit_hex (n : Z) : 0 <= n < 16 -> isHexDigit (Encoding.hexdigit n) = true.
Proof.
  intros Hn. rewrite <- (Z2Nat.id n) by lia.
  assert (Z.to_nat n < 16)%nat as Hlt by lia. revert Hlt.
  generalize (Z.to_nat n). intros k Hk.
  do 16 (destruct k as [|k]; [vm_compute; reflexivity|]). lia.
Qed.

Lemma hex_shape (bs : list Z) :
  Forall (fun b => 0 <= b < 256) bs ->
  len (Encoding.hex bs) = (2 * length bs)%nat
  /\ allBytes isHexDigit (Encoding.hex bs) = true.
Proof.
  induction 1 as [|b bs Hb _ [IHlen IHall]]; [by split|].
  simpl. rewrite IHlen, IHall. split; [lia|].
  rewrite !hexdigit_hex; [reflexivity | |].
  - apply Z.mod_pos_bound. lia.
  - split; [apply Z.div_pos; lia | apply Z.div_lt_upper_bound; lia].
Qed.

(** X21.  Whatever the token and the path, the cache key is [creds:]
    followed by exactly 64 lower-case hexadecimal digits: every key is 70
    bytes long, however long the token and the path are. *)
Theorem generateCacheKey_shape (vaultToken vaultPath : string) :
  exists digest,
    generateCacheKey vaultToken vaultPath = "creds:" +:+ digest
    /\ len digest = 64%nat
    /\ allBytes isHexDigit digest = true
    /\ len (generateCacheKey vaultToken vaultPath) = 70%nat.
Proof.
  unfold generateCacheKey.
  set (msg := Encoding.bytes_of (vaultToken +:+ ":" +:+ vaultPath)).
  destruct (digest_bytes
              (Sha256.blocks (length (Sha256.words (Sha256.pad msg)) / 16)
                 Sha256.H0 (Sha256.words (Sha256.pad msg)))) as (Hlen & Hall).
  rewrite blocks_length in Hlen.
  destruct (hex_shape _ Hall) as (Hhexlen & Hhex).
  assert (len (Encoding.hex (Sha256.Sum256 msg)) = 64%nat) as Hdigest.
  { unfold Sha256.Sum256. rewrite Hhexlen, Hlen. reflexivity. }
  exists (Encoding.hex (Sha256.Sum256 msg)).
  split; [reflexivity|]. split; [exact Hdigest|]. split; [exact Hhex|].
  rewrite len_app, Hdigest. reflexivity.
Qed.

(** X22.  The invariant of a parsed locator: when [ParseUsername]
    succeeds, the username consists of three segments cut at its first two
    semicolons, the locator's fields are these segments trimmed, its type
    is one of docker, ecr, gcr, and neither its secret path nor its
    registry URL is empty. *)
Theorem ParseUsername_success_invariant (u : string) (cfg : RegistryConfig) :
  ParseUsername u = inl cfg ->
  (exists a b c,
     Segments u a b c
     /\ cfg = mkRegistryConfig (TrimSpace a) (TrimSpace b) (TrimSpace c))
  /\ KnownType (Type_ cfg)
  /\ VaultPath cfg <> "" /\ RegistryURL cfg <> "".
Proof.
  intros Hparse. destruct (Segments_dec u) as [(a & b & c & Hseg)|Hno].
  - rewrite (ParseUsername_segments _ _ _ _ Hseg) in Hparse.
    destruct (String.eqb (TrimSpace a) "" || String.eqb (TrimSpace b) ""
              || String.eqb (TrimSpace c) "") eqn:Hempty; [discriminate|].
    apply NonEmptyTrimmed_eqb in Hempty as (_ & Hb & Hc).
    destruct (isValidRegistryType (TrimSpace a)) eqn:Hvalid; [|discriminate].
    cbn [negb] in Hparse. inversion Hparse; subst cfg. cbn [Type_ VaultPath RegistryURL].
    split; [by exists a, b, c|].
    split; [by apply isValidRegistryType_known|]. by split.
  - rewrite (ParseUsername_no_segments u Hno) in Hparse. discriminate.
Qed.

Lemma ParseUsername_success_invariant_witness :
  KnownType "ecr" /\ "aws-ecr" <> "".
Proof.
  destruct (ParseUsername_success_invariant
              "ecr;aws-ecr;123456789.dkr.ecr.us-east-1.amazonaws.com"
              (mkRegistryConfig "ecr" "aws-ecr"
                 "123456789.dkr.ecr.us-east-1.amazonaws.com"))
    as (_ & Hknown & Hpath & _); [vm_compute; reflexivity|].
  split; [exact Hknown | exact Hpath].
Defined.

End Shapes.

(** ** The embedded primitives on known values *)

Example ParseUsername_readme :
  Auth.ParseUsername "docker;docker-hub;registry.hub.docker.com"
  = inl (Auth.mkRegistryConfig "docker" "docker-hub" "registry.hub.docker.com").
Proof. vm_compute. reflexivity. Qed.

Example ParseUsername_trims :
  Auth.ParseUsername " docker ; a ;x;y; "
  = inl (Auth.mkRegistryConfig "docker" "a" "x;y;").
Proof. vm_compute. reflexivity. Qed.

(** A no-break space (C2 A0) in front and an ideographic space (E3 80 80)
    behind are trimmed; a lone byte A0 is no white space. *)
Example TrimSpace_unicode :
  let nbsp := String (GoStrings.byte 194) (String (GoStrings.byte 160) "") in
  let wide := String (GoStrings.byte 227)
                (String (GoStrings.byte 128) (String (GoStrings.byte 128) "")) in
  let lone := String (GoStrings.byte 160) "" in
  GoStrings.TrimSpace (nbsp +:+ " a b " +:+ wide) = "a b"
  /\ GoStrings.TrimSpace (lone +:+ "a ") = lone +:+ "a".
Proof. vm_compute. split; reflexivity. Qed.

Example Split_slashes : GoStrings.Split "a/b//c" "/" = ["a"; "b"; ""; "c"].
Proof. vm_compute. reflexivity. Qed.

Example TrimSuffix_tags : GoStrings.TrimSuffix "abc/tags/list" "/tags/list" = "abc".
Proof. vm_compute. reflexivity. Qed.

(** The digests of FIPS 180-2 for "abc" and for the empty message. *)
Example Sum256_abc :
  Encoding.hex (Sha256.Sum256 (Encoding.bytes_of "abc"))
  = "ba7816bf8f01cfea414140de5dae2223b00361a396177a9cb410ff61f20015ad".
Proof. vm_compute. reflexivity. Qed.

Example Sum256_empty :
  Encoding.hex (Sha256.Sum256 (Encoding.bytes_of ""))
  = "e3b0c44298fc1c149afbf4c8996fb92427ae41e4649b934ca495991b7852b855".
Proof. vm_compute. reflexivity. Qed.

(** A message of two blocks. *)
Example Sum256_two_blocks :
  Encoding.hex (Sha256.Sum256 (replicate 130 120))
  = "3afbb132863c57f08bdc32205eb6c63775397a9953819218a1f4b7cbdc0ff90f".
Proof. vm_compute. reflexivity. Qed.

Example generateCacheKey_joined :
  Cache.generateCacheKey "a" "b:c"
  = "creds:b0ee04f880c4ff4261479e2e7822b7410aee4c7159f4185ad5b0d88a312b495e".
Proof. vm_compute. reflexivity. Qed.

Example EncodeToString_padding :
  Encoding.EncodeToString "user:pass" = "dXNlcjpwYXNz"
  /\ Encoding.EncodeToString "a" = "YQ=="
  /\ Encoding.EncodeToString "ab" = "YWI=".
Proof. vm_compute. repeat split; reflexivity. Qed.

Example CanonicalMIMEHeaderKey_registry :
  Http.CanonicalMIMEHeaderKey "X-Registry-URL" = "X-Registry-Url"
  /\ Http.CanonicalMIMEHeaderKey "content-type" = "Content-Type"
  /\ Http.CanonicalMIMEHeaderKey "bad key" = "bad key".
Proof. vm_compute. repeat split; reflexivity. Qed.
